(** * Illumina batch preparation: a model of [illum/batches.py]

    The module prepares the experiment matrix of the ILLUMINA light-pollution
    simulator: it expands the configuration into the Cartesian product of its
    list-valued parameters, prunes the zenith duplicates, names a sandbox
    directory and an identifier for every combination, links the assets into
    the sandbox, and writes the manifest [execute_info.txt].

    The development follows the file top-down:
    - Python values, [str], [==] and the few arithmetic operators used;
    - dictionaries in declaration order, [ChainMap] lookup;
    - a file system with directories, regular files and symbolic links;
    - [input_line], [create_illumina_in], [create_symlinks], [folder_setup],
      [param_generate] and [batches], each transcribed from its source
      function, exceptions being values of [result], then [MSDOpen] and
      [execute_wrapper];
    - the properties of the parameter matrix, of the input document, of the
      sandbox construction and of the clean-up done by [batches];
    - further properties of each function: what it accepts, what it writes
      and what it leaves alone. *)

From Stdlib Require Import ZArith List String Ascii Lia Permutation.
From stdpp Require Import gmap strings list fin_maps pretty sorting.

Set Warnings "-register-all".

Open Scope string_scope.
Open Scope Z_scope.

(** ** Exceptions and results *)

Inductive exn : Type :=
  | KeyError (key : string)
  | NameError (name : string)
  | ValueError
  | TypeError
  | IndexError
  | FileExistsError (path : string)
  | FileNotFoundError (path : string)
  | IsADirectoryError (path : string).

Inductive result (A : Type) : Type :=
  | Ok (a : A)
  | Raise (e : exn).

Arguments Ok {A} a.
Arguments Raise {A} e.

Definition bind {A B : Type} (r : result A) (k : A -> result B) : result B :=
  match r with
  | Ok a => k a
  | Raise e => Raise e
  end.

Notation "'do' x <- e ; k" := (bind e (fun x => k))
  (at level 10, x pattern, e at level 100, k at level 200).

Definition of_option {A : Type} (e : exn) (o : option A) : result A :=
  match o with
  | Some a => Ok a
  | None => Raise e
  end.

(** [for x in l: st = body st x], stopping at the first exception. *)
Fixpoint for_each {A S : Type} (body : S -> A -> result S) (l : list A) (st : S)
  : result S :=
  match l with
  | [] => Ok st
  | x :: l' => do st' <- body st x; for_each body l' st'
  end.

(** ** Python values *)

(** What the interpreter does with a [float] is taken as an interface: the
    comparison, the arithmetic used by the module, and the three renderings
    [str(x)], ["%g" % x] and ["%6f" % x]. *)
Class Interpreter (float : Type) : Type := {
  float_eqb : float -> float -> bool;
  float_of_Z : Z -> float;
  float_add : float -> float -> float;
  float_mod : float -> float -> float;
  str_float : float -> string;
  fmt_g : float -> string;
  fmt_6f : float -> string;
  (** [repr] of a [str], used when a string sits inside a list or a tuple *)
  repr_string : string -> string
}.

Section Values.

Context {float : Type} `{Interpreter float}.

(** The values a configuration holds once [yaml.safe_load] has read it,
    and the tuples [batches] adds for the observers: [None], booleans,
    numbers, texts and sequences. The mappings, dates, byte strings and sets
    that a YAML document can also hold are not modelled; a statement about
    every value is a statement about these seven kinds. *)
Inductive pyval : Type :=
  | VNone
  | VBool (b : bool)
  | VInt (z : Z)
  | VFloat (x : float)
  | VStr (s : string)
  | VList (l : list pyval)
  | VTuple (l : list pyval).

Definition Z_of_bool (b : bool) : Z := if b then 1 else 0.

(** The numeric tower: [bool] is a subtype of [int]. *)
Inductive number : Type :=
  | NInt (z : Z)
  | NFloat (x : float).

Definition as_number (v : pyval) : option number :=
  match v with
  | VBool b => Some (NInt (Z_of_bool b))
  | VInt z => Some (NInt z)
  | VFloat x => Some (NFloat x)
  | _ => None
  end.

Definition to_float (n : number) : float :=
  match n with
  | NInt z => float_of_Z z
  | NFloat x => x
  end.

(** Two numbers are equal as integers, or as floats once an integer has
    been converted. *)
Definition number_eqb (a b : number) : bool :=
  match a, b with
  | NInt x, NInt y => Z.eqb x y
  | _, _ => float_eqb (to_float a) (to_float b)
  end.

(** [a == b]. The identity shortcut of container comparisons is not
    modelled: it only matters for a NaN compared with itself. *)
Fixpoint py_eq (a b : pyval) {struct a} : bool :=
  let fix all_eq (l l' : list pyval) {struct l} : bool :=
    match l, l' with
    | [], [] => true
    | x :: r, y :: r' => py_eq x y && all_eq r r'
    | _, _ => false
    end in
  match a, b with
  | VNone, VNone => true
  | VStr s, VStr t => String.eqb s t
  | VList l, VList l' => all_eq l l'
  | VTuple l, VTuple l' => all_eq l l'
  | VBool x, _ =>
      match as_number b with
      | Some n => number_eqb (NInt (Z_of_bool x)) n
      | None => false
      end
  | VInt x, _ =>
      match as_number b with
      | Some n => number_eqb (NInt x) n
      | None => false
      end
  | VFloat x, _ =>
      match as_number b with
      | Some n => number_eqb (NFloat x) n
      | None => false
      end
  | _, _ => false
  end.

Definition str_bool (b : bool) : string := if b then "True" else "False".

(** [str(z)] for an [int]: decimal digits with a leading minus sign. *)
Definition str_int (z : Z) : string := pretty z.

(** [repr(v)]; [str(v)] differs from it on strings only. *)
Fixpoint py_repr (v : pyval) : string :=
  match v with
  | VNone => "None"
  | VBool b => str_bool b
  | VInt z => str_int z
  | VFloat x => str_float x
  | VStr s => repr_string s
  | VList l => "[" +:+ String.concat ", " (map py_repr l) +:+ "]"
  | VTuple [x] => "(" +:+ py_repr x +:+ ",)"
  | VTuple l => "(" +:+ String.concat ", " (map py_repr l) +:+ ")"
  end.

Definition py_str (v : pyval) : string :=
  match v with
  | VStr s => s
  | _ => py_repr v
  end.

(** [a + b] when one operand is a number, as the bearing is: the other
    must be a number too. *)
Definition py_add (a b : pyval) : result pyval :=
  match as_number a, as_number b with
  | Some (NInt x), Some (NInt y) => Ok (VInt (x + y))
  | Some x, Some y => Ok (VFloat (float_add (to_float x) (to_float y)))
  | _, _ => Raise TypeError
  end.

(** [a % m] for a positive [int] literal [m]: the result has the sign of
    [m], as [Z.modulo]. *)
Definition py_mod (a : pyval) (m : Z) : result pyval :=
  match as_number a with
  | Some (NInt x) => Ok (VInt (x mod m))
  | Some (NFloat x) => Ok (VFloat (float_mod x (float_of_Z m)))
  | None => Raise TypeError
  end.

(** [a * 1]: a [bool] becomes an [int], everything else that supports the
    product is unchanged. *)
Definition py_mul1 (a : pyval) : result pyval :=
  match a with
  | VNone => Raise TypeError
  | VBool b => Ok (VInt (Z_of_bool b))
  | _ => Ok a
  end.

(** ["%g" % v] and ["%6f" % v] accept a number. *)
Definition py_fmt_g (v : pyval) : result string :=
  match as_number v with
  | Some n => Ok (fmt_g (to_float n))
  | None => Raise TypeError
  end.

Definition py_fmt_6f (v : pyval) : result string :=
  match as_number v with
  | Some n => Ok (fmt_6f (to_float n))
  | None => Raise TypeError
  end.

(** ["%03d" % i] for the positive indices of [enumerate(lamps, 1)]. *)
Definition fmt_03d (i : nat) : string :=
  let s := pretty i in
  if (String.length s <? 3)%nat
  then String.concat "" (replicate (3 - String.length s) "0") +:+ s
  else s.

(** [l.index(x)] *)
Fixpoint list_index_from (i : nat) (l : list pyval) (x : pyval) : result nat :=
  match l with
  | [] => Raise ValueError
  | y :: l' => if py_eq y x then Ok i else list_index_from (S i) l' x
  end.

Definition list_index (l : pyval) (x : pyval) : result nat :=
  match l with
  | VList l => list_index_from 0 l x
  | _ => Raise TypeError
  end.

End Values.

Arguments pyval float : clear implicits.

(** ** Dictionaries in declaration order *)

Section Dict.

Context {V : Type}.

(** A [dict] keeps its keys in insertion order; keys are strings. *)
Definition dict : Type := list (string * V).

Fixpoint dict_lookup (k : string) (d : dict) : option V :=
  match d with
  | [] => None
  | (k', v) :: d' => if String.eqb k' k then Some v else dict_lookup k d'
  end.

(** [d[k]] *)
Definition dict_get (k : string) (d : dict) : result V :=
  of_option (KeyError k) (dict_lookup k d).

(** [d[k] = v]: an existing key keeps its position, a new one goes last. *)
Fixpoint dict_set (k : string) (v : V) (d : dict) : dict :=
  match d with
  | [] => [(k, v)]
  | (k', v') :: d' =>
      if String.eqb k' k then (k, v) :: d' else (k', v') :: dict_set k v d'
  end.

Definition dict_keys (d : dict) : list string := map fst d.

(** [OrderedDict(pairs)] *)
Definition dict_of_pairs (l : list (string * V)) : dict :=
  fold_left (fun d kv => dict_set (fst kv) (snd kv) d) l [].

(** [ChainMap(local, base)[k]] *)
Definition chain_get (local base : dict) (k : string) : result V :=
  match dict_lookup k local with
  | Some v => Ok v
  | None => dict_get k base
  end.

End Dict.

Arguments dict V : clear implicits.

(** [k in names] for a list of names *)
Definition name_in (k : string) (names : list string) : bool :=
  existsb (String.eqb k) names.

(** ** Strings and paths *)

(** [t in s]: [t] occurs in [s] as a substring. *)
Fixpoint contains (t s : string) : bool :=
  String.prefix t s ||
  match s with
  | EmptyString => false
  | String _ s' => contains t s'
  end.

(** ["%-*s" % (n, s)]: left-justified in a field of at least [n] characters.
    A length is a number of bytes, which is the number of characters of an
    ASCII text. *)
Definition ljust (n : nat) (s : string) : string :=
  s +:+ String.concat "" (replicate (n - String.length s) " ").

(** A path without its trailing separator: [exec/] names the entry [exec]. *)
Fixpoint strip_sep (p : string) : string :=
  match p with
  | EmptyString => EmptyString
  | String c EmptyString => if Ascii.eqb c "/" then EmptyString else p
  | String c p' => String c (strip_sep p')
  end.

(** [os.path.dirname] of a path that does not end with a separator. *)
Fixpoint dirname_from (seen : string) (dir : string) (p : string) : string :=
  match p with
  | EmptyString => dir
  | String c p' =>
      if Ascii.eqb c "/"
      then dirname_from (seen +:+ "/") seen p'
      else dirname_from (seen +:+ String c EmptyString) dir p'
  end.

Definition dirname (p : string) : string := dirname_from "" "" p.

(** The proper ancestors of an entry, outermost first. *)
Fixpoint ancestors_from (seen : string) (p : string) : list string :=
  match p with
  | EmptyString => []
  | String c p' =>
      (if Ascii.eqb c "/" && negb (String.eqb seen "") then [seen] else [])
      ++ ancestors_from (seen +:+ String c EmptyString) p'
  end.

Definition ancestors (p : string) : list string := ancestors_from "" p.

(** [os.path.join(a, b)] *)
Definition path_join (a b : string) : string :=
  if String.prefix "/" b then b
  else if String.eqb a "" then b
  else if String.eqb (strip_sep a) a then a +:+ "/" +:+ b
  else a +:+ b.

(** [p] is the entry [d] or lies below it. *)
Definition at_or_under (d p : string) : bool :=
  String.eqb p d || String.prefix (d +:+ "/") p.

(** ** The file system *)

(** The text of a file, when the model follows it. *)
Inductive content : Type :=
  | Text (s : string)
  | Opaque.

Inductive node : Type :=
  | File (c : content)
  | Dir
  | Link (target : string).

(** The tree below the working directory, keyed by relative path. A path
    is the text of its key: the model reads a path component by component
    and resolves neither [.] nor [..] nor a symbolic link on the way, so it
    speaks for the paths that [canonical] accepts, through directories that
    are directories. *)
Abbreviation FS := (gmap string node).

(** What the module asks of [os.path], [glob] and the installation. *)
Class Platform : Type := {
  relpath : string -> string -> string;
  abspath : string -> string;
  glob_match : string -> string -> bool;
  (** [os.path.dirname(illum.__path__[0])] *)
  illumpath : string
}.

(** [os.path.isdir(p)]; links are not followed, so the test is the one of
    Python for every entry but a link that leads to a directory. *)
Definition isdir (fs : FS) (p : string) : bool :=
  match fs !! strip_sep p with
  | Some Dir => true
  | _ => false
  end.

(** [os.path.isfile(p)] *)
Definition isfile (fs : FS) (p : string) : bool :=
  match fs !! p with
  | Some (File _) => true
  | _ => false
  end.

(** The directory that must hold a new entry exists. *)
Definition parent_ok (fs : FS) (p : string) : bool :=
  String.eqb (dirname p) "" || isdir fs (dirname p).

(** The ancestors are created where they are missing; one that is there
    and is not a directory stops the chain. The model names the exception
    after the ancestor, where Python raises [NotADirectoryError] on the
    entry below a regular file and walks through a link to a directory: a
    statement that depends on the difference says so in its hypotheses. *)
Fixpoint mkdir_chain (ps : list string) (fs : FS) : result FS :=
  match ps with
  | [] => Ok fs
  | p :: ps' =>
      match fs !! p with
      | None => mkdir_chain ps' (<[p := Dir]> fs)
      | Some Dir => mkdir_chain ps' fs
      | Some _ => Raise (FileExistsError p)
      end
  end.

(** [os.makedirs(p)] for a path [p] that is not empty: the missing
    ancestors, then the leaf, which must be new. *)
Definition makedirs (p : string) (fs : FS) : result FS :=
  let k := strip_sep p in
  match fs !! k with
  | Some _ => Raise (FileExistsError p)
  | None => do fs' <- mkdir_chain (ancestors k) fs; Ok (<[k := Dir]> fs')
  end.

(** [os.symlink(src, dst)]: the target [src] is stored as text and is not
    looked up. *)
Definition symlink (src dst : string) (fs : FS) : result FS :=
  match fs !! dst with
  | Some _ => Raise (FileExistsError dst)
  | None =>
      if parent_ok fs dst then Ok (<[dst := Link src]> fs)
      else Raise (FileNotFoundError dst)
  end.

(** [shutil.rmtree(p, True)]: errors are ignored, so a file or a link is
    left as it is; a directory goes with everything below it, and below a
    path that does not exist there is nothing to remove. *)
Definition rmtree (p : string) (fs : FS) : FS :=
  match fs !! strip_sep p with
  | Some (File _) | Some (Link _) => fs
  | _ => filter (fun kv => at_or_under (strip_sep p) (fst kv) = false) fs
  end.

(** [os.remove(p)] *)
Definition remove (p : string) (fs : FS) : result FS :=
  match fs !! p with
  | None => Raise (FileNotFoundError p)
  | Some Dir => Raise (IsADirectoryError p)
  | Some _ => Ok (delete p fs)
  end.

(** [open(p, "a")] followed by one write. *)
Definition append_file (p : string) (s : string) (fs : FS) : result FS :=
  match fs !! p with
  | Some Dir => Raise (IsADirectoryError p)
  | Some (File (Text old)) => Ok (<[p := File (Text (old +:+ s))]> fs)
  | Some (File Opaque) => Ok fs
  | _ =>
      if parent_ok fs p then Ok (<[p := File (Text s)]> fs)
      else Raise (FileNotFoundError p)
  end.

(** [open(p, "w")] followed by the writes and the close. *)
Definition write_file (p : string) (c : content) (fs : FS) : result FS :=
  match fs !! p with
  | Some Dir => Raise (IsADirectoryError p)
  | _ =>
      if parent_ok fs p then Ok (<[p := File c]> fs)
      else Raise (FileNotFoundError p)
  end.

(** [glob(pattern)] for a pattern without separator: the entries of the
    working directory that match. *)
Definition glob `{Platform} (pattern : string) (fs : FS) : list string :=
  filter (fun name => negb (contains "/" name) && glob_match pattern name = true)
         (map fst (map_to_list fs)).

(** ** The functions of the module *)

Section Program.

Context {float : Type} `{Interpreter float} `{Platform}.

Abbreviation value := (pyval float).

(** [ChainMap(local_params, params)]: reads fall through to the base,
    writes go to the first mapping. *)
Record chainmap : Type := ChainMap {
  cm_local : dict value;
  cm_base : dict value
}.

Definition cm_get (P : chainmap) (k : string) : result value :=
  chain_get (cm_local P) (cm_base P) k.

Definition cm_set (P : chainmap) (k : string) (v : value) : chainmap :=
  ChainMap (dict_set k v (cm_local P)) (cm_base P).

(** A free name of a function body is looked up in the module namespace. *)
Definition load_global (G : dict value) (name : string) : result value :=
  of_option (NameError name) (dict_lookup name G).

(** The module binds its imports and its nine functions and nothing else:
    no data value lives at module level. *)
Definition module_globals : dict value := [].

(** A value used where only a [str] will do, as in [fold_name + exp_name]. *)
Definition as_str (v : value) : result string :=
  match v with
  | VStr s => Ok s
  | _ => Raise TypeError
  end.

(** A value that is iterated as a list. *)
Definition as_list (v : value) : result (list value) :=
  match v with
  | VList l => Ok l
  | _ => Raise TypeError
  end.

(** [l[i]] *)
Definition subscript (l : value) (i : nat) : result value :=
  match l with
  | VList l | VTuple l => of_option IndexError (nth_error l i)
  | _ => Raise TypeError
  end.

(** *** [input_line] *)

Definition input_line (val : list value) (comment : list string) (n_space : nat)
  : string :=
  let value_str := String.concat " " (map py_str val) in
  let comment_str := String.concat " ; " comment in
  ljust n_space value_str +:+ " ! " +:+ comment_str.

(** *** [create_illumina_in] *)

(** One logical line: its (value, comment) groups. *)
Definition line_data : Type := list (value * string).

Definition create_illumina_in (exp_name layer : value)
    (pixel_size : value -> result value) (P : chainmap) (wavelength : string)
    (reflectance bandwidth : value) (lamps : list string) (bearing : value)
  : result (list line_data) :=
  do size_x <- pixel_size layer;
  do size_y <- pixel_size layer;
  do layer_aod <- cm_get P "layer_aod";
  do layer_alpha <- cm_get P "layer_alpha";
  do layer_height <- cm_get P "layer_height";
  do double_scattering <- cm_get P "double_scattering";
  do double_scattering <- py_mul1 double_scattering;
  do single_scattering <- cm_get P "single_scattering";
  do single_scattering <- py_mul1 single_scattering;
  do air_pressure <- cm_get P "air_pressure";
  do aerosol_optical_depth <- cm_get P "aerosol_optical_depth";
  do angstrom_coefficient <- cm_get P "angstrom_coefficient";
  do aerosol_height <- cm_get P "aerosol_height";
  do stop_limit <- cm_get P "stop_limit";
  do observer_elevation <- cm_get P "observer_elevation";
  do observer_obstacles <- cm_get P "observer_obstacles";
  do observer_obstacles <- py_mul1 observer_obstacles;
  do elevation_angle <- cm_get P "elevation_angle";
  do azimuth_angle <- cm_get P "azimuth_angle";
  do azimuth <- py_add azimuth_angle bearing;
  do azimuth <- py_mod azimuth 360;
  do direct_fov <- cm_get P "direct_fov";
  do reflection_radius <- cm_get P "reflection_radius";
  do cloud_model <- cm_get P "cloud_model";
  do cloud_base <- cm_get P "cloud_base";
  do cloud_fraction <- cm_get P "cloud_fraction";
  Ok [
    [(VStr "", "Input file for ILLUMINA")];
    [(exp_name, "Root file name")];
    [(size_x, "Cell size along X [m]"); (size_y, "Cell size along Y [m]")];
    [(VStr "aerosol.txt", "Aerosol optical cross section file")];
    [(VStr "layer.txt", "Layer optical cross section file");
     (layer_aod, "Layer aerosol optical depth at 500nm");
     (layer_alpha, "Layer angstom coefficient");
     (layer_height, "Layer scale height [m]")];
    [(double_scattering, "Double scattering activated")];
    [(single_scattering, "Single scattering activated")];
    [(VStr wavelength, "Wavelength [nm]"); (bandwidth, "Bandwidth [nm]")];
    [(reflectance, "Reflectance")];
    [(air_pressure, "Ground level pressure [kPa]")];
    [(aerosol_optical_depth, "Aerosol optical depth at 500nm");
     (angstrom_coefficient, "Angstrom exponent");
     (aerosol_height, "Aerosol scale height [m]")];
    [(VInt (Z.of_nat (length lamps)), "Number of source types")];
    [(stop_limit, "Contribution threshold")];
    [(VStr "", "")];
    [(VInt 256, "Observer X position");
     (VInt 256, "Observer Y position");
     (observer_elevation, "Observer elevation above ground [m]")];
    [(observer_obstacles, "Obstacles around observer")];
    [(elevation_angle, "Elevation viewing angle");
     (azimuth, "Azimuthal viewing angle")];
    [(direct_fov, "Direct field of view")];
    [(VStr "", "")];
    [(VStr "", "")];
    [(VStr "", "")];
    [(reflection_radius,
      "Radius around light sources where reflextions are computed")];
    [(cloud_model,
      "Cloud model: 0=clear, 1=Thin Cirrus/Cirrostratus, 2=Thick Cirrus/Cirrostratus, 3=Altostratus/Altocumulus, 4=Cumulus/Cumulonimbus, 5=Stratocumulus");
     (cloud_base, "Cloud base altitude [m]");
     (cloud_fraction, "Cloud fraction")];
    [(VStr "", "")]
  ].

(** Each line is unzipped into its values and its comments and given to
    [input_line] with the default width; the lines are joined by newlines.
    This is the text [param_generate] writes to the [.in] file. *)
Definition render_line (l : line_data) : string :=
  input_line (map fst l) (map snd l) 30.

Definition newline : string := String (ascii_of_nat 10) EmptyString.

Definition render_input (input_data : list line_data) : string :=
  String.concat newline (map render_line input_data).

(** *** [create_symlinks] *)

(** [enumerate(l, 1)] *)
Definition enumerate1 {A : Type} (l : list A) : list (nat * A) :=
  zip (seq 1 (length l)) l.

Definition create_symlinks (fold_name : string) (params : dict value)
    (exp_name : value) (coords : string) (layer : value) (lamps : list string)
    (wavelength : string) (fs : FS) : result FS :=
  if isdir fs fold_name then Ok fs else
  do fs <- makedirs fold_name fs;
  do aerosol_profile <- dict_get "aerosol_profile" params;
  let mie_file := py_str aerosol_profile +:+ "_" +:+ wavelength +:+ ".txt" in
  do fs <- symlink (relpath mie_file fold_name) (fold_name +:+ "aerosol.txt") fs;
  do layer_type <- dict_get "layer_type" params;
  let layer_file := py_str layer_type +:+ "_" +:+ wavelength +:+ ".txt" in
  do fs <- symlink (relpath layer_file fold_name) (fold_name +:+ "layer.txt") fs;
  do fs <- symlink (relpath "MolecularAbs.txt" fold_name)
                   (fold_name +:+ "MolecularAbs.txt") fs;
  do fs <- for_each (fun fs il =>
             do exp <- as_str exp_name;
             symlink
               (relpath ("fctem_wl_" +:+ wavelength +:+ "_lamp_" +:+ snd il +:+ ".dat")
                        fold_name)
               (fold_name +:+ exp +:+ "_fctem_" +:+ fmt_03d (fst il) +:+ ".dat") fs)
           (enumerate1 lamps) fs;
  do fs <- symlink (abspath (illumpath +:+ "/bin/illumina"))
                   (fold_name +:+ "illumina") fs;
  let obs_fold := path_join (path_join "obs_data" coords) (py_str layer) in
  do exp <- as_str exp_name;
  do fs <- symlink (relpath (path_join obs_fold "srtm.bin") fold_name)
                   (fold_name +:+ exp +:+ "_topogra.bin") fs;
  do fs <- symlink (relpath (path_join obs_fold "origin.bin") fold_name)
                   (fold_name +:+ "origin.bin") fs;
  do fs <- for_each (fun fs name =>
             symlink
               (relpath (path_join obs_fold (py_str exp_name +:+ "_" +:+ name +:+ ".bin"))
                        fold_name)
               (fold_name +:+ py_str exp_name +:+ "_" +:+ name +:+ ".bin") fs)
           ["obstd"; "obsth"; "obstf"; "altlp"] fs;
  for_each (fun fs il =>
      symlink
        (relpath
           (path_join obs_fold
              (py_str exp_name +:+ "_" +:+ wavelength +:+ "_lumlp_" +:+ snd il +:+ ".bin"))
           fold_name)
        (fold_name +:+ py_str exp_name +:+ "_lumlp_" +:+ fmt_03d (fst il) +:+ ".bin") fs)
    (enumerate1 lamps) fs.

(** *** The parameter matrix *)

(** [sorted(l, key=key, reverse=True)]: descending, and stable, so that
    elements with equal keys stay in their original order. *)
Fixpoint insert_desc {A : Type} (key : A -> nat) (x : A) (l : list A) : list A :=
  match l with
  | [] => [x]
  | y :: l' =>
      if (key y <=? key x)%nat then x :: l else y :: insert_desc key x l'
  end.

Definition sorted_desc {A : Type} (key : A -> nat) (l : list A) : list A :=
  foldr (insert_desc key) [] l.

(** [isinstance(v, list)] *)
Definition is_list (v : value) : bool :=
  match v with
  | VList _ => true
  | _ => false
  end.

(** [isinstance(params[k], list)] for a key [k] *)
Definition list_valued (params : dict value) (k : string) : bool :=
  match dict_lookup k params with
  | Some v => is_list v
  | None => false
  end.

(** [[k for k in params if isinstance(params[k], list)]] *)
Definition varying (params : dict value) : list string :=
  filter (fun k => list_valued params k = true) (dict_keys params).

(** The sort key is [len] applied to the element, which is the name. *)
Definition multival_of (params : dict value) : list string :=
  sorted_desc String.length (varying params).

(** The elements of a list value. *)
Definition elements_of (v : value) : list value :=
  match v with
  | VList l => l
  | _ => []
  end.

(** The values of [params[k]] for a name [k] of [multival], which is a key
    of [params] bound to a list. *)
Definition values_of (params : dict value) (k : string) : list value :=
  match dict_lookup k params with
  | Some v => elements_of v
  | None => []
  end.

(** [[params[k] for k in multival]] *)
Definition param_space_of (params : dict value) (multival : list string)
  : list (list value) :=
  map (values_of params) multival.

(** [itertools.product] of the lists [ls]: the last list varies fastest. *)
Fixpoint product {A : Type} (ls : list (list A)) : list (list A) :=
  match ls with
  | [] => [[]]
  | l :: ls' => x ← l; t ← product ls'; [x :: t]
  end.

Definition param_vals_of (params : dict value) : list (list value) :=
  product (param_space_of params (multival_of params)).

(** *** [folder_setup] *)

Record setup_state : Type := SetupState {
  st_fs : FS;
  exe_location : list string;
  exe_input : list string;
  exe_output : list string
}.

(** The test that sends the loop to [continue]. *)
Definition zenith_duplicate (multival : list string) (params : dict value)
    (P : chainmap) : result bool :=
  if name_in "azimuth_angle" multival then
    do elevation <- cm_get P "elevation_angle";
    if py_eq elevation (VInt 90) then
      do azimuths <- dict_get "azimuth_angle" params;
      do azimuth <- cm_get P "azimuth_angle";
      do i <- list_index azimuths azimuth;
      Ok (negb (Nat.eqb i 0))
    else Ok false
  else Ok false.

(** [f"{k}_{v}"] and ["%s_%s" % (k, v)] *)
Definition key_value (kv : string * value) : string :=
  fst kv +:+ "_" +:+ py_str (snd kv).

Definition compact_keys : list string :=
  ["observer_coordinates"; "wavelength"; "layer"].

Definition fold_name_of (compact : bool) (dir_name : string)
    (local_params : dict value) : string :=
  if compact then
    dir_name
    +:+ String.concat "/"
          (map key_value
               (filter (fun kv => name_in (fst kv) compact_keys = true) local_params))
    +:+ "/"
  else
    dir_name +:+ String.concat "/" (map key_value local_params) +:+ "/".

Definition unique_ID_of (local_params : dict value) : string :=
  String.concat "-" (map key_value local_params).

(** ["%6f_%6f" % v] *)
Definition coords_of (v : value) : result string :=
  match v with
  | VTuple [a; b] =>
      do sa <- py_fmt_6f a;
      do sb <- py_fmt_6f b;
      Ok (sa +:+ "_" +:+ sb)
  | _ => Raise TypeError
  end.

(** One turn of the loop over [param_values]. The names [refls], [wls],
    [spectral_bands] and [lamps] are neither parameters nor locals of
    [folder_setup]: they are read from the module namespace [G]. *)
Definition folder_setup_body (G : dict value) (params : dict value)
    (multival : list string) (brng : option (list float)) (compact : bool)
    (dir_name : string) (exp_name : value)
    (st : setup_state) (param_vals : list value) : result setup_state :=
  let local_params := dict_of_pairs (zip multival param_vals) in
  let P := ChainMap local_params params in
  do skip <- zenith_duplicate multival params P;
  if skip then Ok st else
  do bearing <-
    (if isfile (st_fs st) "brng.lst" then
       do obs_index <-
         (if negb (name_in "observer_coordinates" multival) then Ok 0%nat
          else
            do observers <- dict_get "observer_coordinates" params;
            do observer <- cm_get P "observer_coordinates";
            list_index observers observer);
       match brng with
       | Some table => do b <- of_option IndexError (nth_error table obs_index);
                       Ok (VFloat b)
       | None => Raise TypeError
       end
     else Ok (VInt 0));
  do observer <- cm_get P "observer_coordinates";
  do coords <- coords_of observer;
  let P := if name_in "observer_coordinates" multival
           then cm_set P "observer_coordinates" (VStr coords) else P in
  let local_params := cm_local P in
  let fold_name := fold_name_of compact dir_name local_params in
  let unique_ID := unique_ID_of local_params in
  do wl <- cm_get P "wavelength";
  do wavelength <- py_fmt_g wl;
  do layer <- cm_get P "layer";
  do refls <- load_global G "refls";
  do wls <- load_global G "wls";
  do wl <- cm_get P "wavelength";
  do i <- list_index wls wl;
  do reflectance <- subscript refls i;
  do spectral_bands <- load_global G "spectral_bands";
  do wls <- load_global G "wls";
  do wl <- cm_get P "wavelength";
  do i <- list_index wls wl;
  do row <- subscript spectral_bands i;
  do bandwidth <- subscript row 1;
  do lamps <- load_global G "lamps";
  do lamps <- as_list lamps;
  do fs <- create_symlinks fold_name params exp_name coords layer
             (map py_str lamps) wavelength (st_fs st);
  Ok (SetupState fs
        (exe_location st ++ [abspath fold_name])
        (exe_input st ++ [unique_ID])
        (exe_output st ++ [py_str exp_name +:+ "_" +:+ unique_ID])).

(** One line of [execute_info.txt]. *)
Definition manifest_line (loc input output : string) : string :=
  loc +:+ "," +:+ (input +:+ ".in") +:+ "," +:+ (output +:+ ".out") +:+ newline.

Fixpoint manifest_text (locs inputs outputs : list string) : string :=
  match locs, inputs, outputs with
  | loc :: locs', input :: inputs', output :: outputs' =>
      manifest_line loc input output +:+ manifest_text locs' inputs' outputs'
  | _, _, _ => ""
  end.

Definition folder_setup (G : dict value) (param_values : list (list value))
    (params : dict value) (multival : list string) (brng : option (list float))
    (compact : bool) (dir_name : string) (exp_name : value) (fs : FS)
  : result setup_state :=
  do st <- for_each
             (folder_setup_body G params multival brng compact dir_name exp_name)
             param_values (SetupState fs [] [] []);
  do fs <- write_file "execute_info.txt"
             (Text (manifest_text (exe_location st) (exe_input st) (exe_output st)))
             (st_fs st);
  Ok (SetupState fs (exe_location st) (exe_input st) (exe_output st)).

(** *** [param_generate] *)

(** The body reads [fold_name], [coords], [unique_ID] and [bearing], which
    are neither parameters nor locals: they are looked up in [G]. *)
Definition param_generate (G : dict value) (local_params : dict value)
    (params : dict value) (wls refls spectral_bands : value)
    (lamps : list string) (exp_name : value)
    (pixel_size : value -> result value) (fs : FS) : result FS :=
  let P := ChainMap local_params params in
  do wl <- cm_get P "wavelength";
  do wavelength <- py_fmt_g wl;
  do layer <- cm_get P "layer";
  do wl <- cm_get P "wavelength";
  do i <- list_index wls wl;
  do reflectance <- subscript refls i;
  do wl <- cm_get P "wavelength";
  do i <- list_index wls wl;
  do row <- subscript spectral_bands i;
  do bandwidth <- subscript row 1;
  do fold_name <- load_global G "fold_name";
  do coords <- load_global G "coords";
  do fs <- create_symlinks (py_str fold_name) params exp_name (py_str coords)
             layer lamps wavelength fs;
  do bearing <- load_global G "bearing";
  do input_data <- create_illumina_in exp_name layer pixel_size P wavelength
                     reflectance bandwidth lamps bearing;
  do fold_name <- load_global G "fold_name";
  do fold_name <- as_str fold_name;
  do unique_ID <- load_global G "unique_ID";
  do unique_ID <- as_str unique_ID;
  do fs <- write_file (fold_name +:+ unique_ID +:+ ".in")
             (Text (render_input input_data)) fs;
  append_file (fold_name +:+ "execute")
    ("cp " +:+ unique_ID +:+ ".in illumina.in" +:+ newline
     +:+ "./illumina" +:+ newline
     +:+ "mv " +:+ py_str exp_name +:+ ".out " +:+ py_str exp_name +:+ "_"
     +:+ unique_ID +:+ ".out" +:+ newline
     +:+ "mv " +:+ py_str exp_name +:+ "_pcl.bin " +:+ py_str exp_name +:+ "_pcl_"
     +:+ unique_ID +:+ ".bin" +:+ newline)
    fs.

(** *** [batches] *)

(** What [batches] reads from the input folder: the parsed configuration,
    the multiscale dataset, the tables, and the names of the rasters the
    preprocessing writes below [obs_data/]. *)
Record inputs : Type := Inputs {
  yaml_params : dict value;
  ds_len : nat;
  ds_obs_pos : list (float * float);
  obs_files : list string;
  wav_lst : list (float * float);
  refl_lst : list float;
  lamps_lst : list string;
  brng_lst : list float
}.

(** [for fname in glob("%s*" % params["batch_file_name"]): os.remove(fname)] *)
Definition clear_batch_files (params : dict value) (fs : FS) : result FS :=
  do name <- dict_get "batch_file_name" params;
  for_each (fun fs fname => remove fname fs) (glob (py_str name +:+ "*") fs) fs.

(** The observer extracts: [obs_data] is rebuilt with one directory per
    observer and layer, in which the rasters are saved. *)
Definition preprocess (inp : inputs) (fs : FS) : result FS :=
  let fs := rmtree "obs_data" fs in
  do fs <- for_each (fun fs pos =>
             for_each (fun fs i =>
                 makedirs ("obs_data/" +:+ fmt_6f (fst pos) +:+ "_"
                           +:+ fmt_6f (snd pos) +:+ "/" +:+ pretty i) fs)
               (seq 0 (ds_len inp)) fs)
           (ds_obs_pos inp) fs;
  Ok (foldl (fun fs f => <["obs_data/" +:+ f := File Opaque]> fs) fs (obs_files inp)).

(** A list of one element is replaced by that element. *)
Definition unwrap_single (pname : string) (params : dict value) : dict value :=
  match dict_lookup pname params with
  | Some (VList [x]) => dict_set pname x params
  | _ => params
  end.

(** The wavelengths, the layers and the observers join the configuration. *)
Definition extend_params (inp : inputs) (params : dict value) : dict value :=
  let params :=
    dict_set "wavelength" (VList (map (fun r => VFloat (fst r)) (wav_lst inp))) params in
  let params :=
    dict_set "layer" (VList (map (fun i => VInt (Z.of_nat i)) (seq 0 (ds_len inp))))
             params in
  let params :=
    dict_set "observer_coordinates"
             (VList (map (fun pos => VTuple [VFloat (fst pos); VFloat (snd pos)])
                         (ds_obs_pos inp))) params in
  unwrap_single "observer_coordinates" (unwrap_single "layer" params).

(** [shutil.rmtree(dir_name, True); os.makedirs(dir_name)] *)
Definition clear_exec (dir_name : string) (fs : FS) : result FS :=
  makedirs dir_name (rmtree dir_name fs).

(** Everything [batches] has done when it calls [folder_setup]: the
    configuration as completed, the experiment name, the table of bearings,
    and the file system. *)
Record prepared : Type := Prepared {
  p_params : dict value;
  p_exp_name : value;
  p_brng : option (list float);
  p_fs : FS
}.

(** The file system is the input folder, to which [batches] changes
    directory; the shell command picked from [scheduler] and [batch_size]
    take no part in what the function does. *)

(** [if batch_name is not None: params["batch_file_name"] = batch_name] *)
Definition with_batch_name (batch_name : option string) (params : dict value)
  : dict value :=
  match batch_name with
  | Some name => dict_set "batch_file_name" (VStr name) params
  | None => params
  end.

Definition batches_prologue (inp : inputs) (batch_name : option string) (fs : FS)
  : result prepared :=
  let params := with_batch_name batch_name (yaml_params inp) in
  do fs <- clear_batch_files params fs;
  do exp_name <- dict_get "exp_name" params;
  do _ <- of_option IndexError (head (glob "*.hdf5" fs));
  do fs <- preprocess inp fs;
  let params := extend_params inp params in
  let brng := if isfile fs "brng.lst" then Some (brng_lst inp) else None in
  do fs <- clear_exec "exec/" fs;
  do fs <- write_file "const_params.yml" Opaque fs;
  Ok (Prepared params exp_name brng fs).

Definition batches_with (G : dict value) (inp : inputs) (compact : bool)
    (batch_name : option string) (fs : FS) : result FS :=
  do pre <- batches_prologue inp batch_name fs;
  let params := p_params pre in
  let multival := multival_of params in
  let param_vals := param_vals_of params in
  do st <- folder_setup G param_vals params multival (p_brng pre) compact "exec/"
             (p_exp_name pre) (p_fs pre);
  do fs <- write_file "param_vals.txt"
             (Text (String.concat ""
                      (map (fun item => py_str (VTuple item) +:+ newline) param_vals)))
             (st_fs st);
  do fs <- write_file "const_params.txt" Opaque fs;
  Ok fs.

(** The function returns here: the statements that follow the [return] of
    the source, among them the pool that would call [param_generate], are
    never run. *)
Definition batches (inp : inputs) (compact : bool) (batch_name : option string)
    (fs : FS) : result FS :=
  batches_with module_globals inp compact batch_name fs.

End Program.

(** ** The other functions of the module *)

Section Cache.

(** The datasets [MSD.Open] returns. *)
Context {dataset : Type}.

(** [MSDOpen(filename, cached={})]: the default dictionary is made once,
    when the function is defined, and every call that does not pass its own
    shares it; it is threaded through the calls as a state. [MSD_Open] is
    the opener of the library. *)
Definition MSDOpen (MSD_Open : string -> result dataset) (filename : string)
    (cached : gmap string dataset) : result (dataset * gmap string dataset) :=
  match cached !! filename with
  | Some ds => Ok (ds, cached)
  | None =>
      do ds <- MSD_Open filename;
      Ok (ds, <[filename := ds]> cached)
  end.

End Cache.

Section Wrapper.

Context {float : Type} `{Interpreter float} `{Platform}.

(** The tuple [execute_wrapper] unpacks, one field for each parameter of
    [param_generate], in its order. *)
Record task : Type := Task {
  t_local_params : dict (pyval float);
  t_multival : list string;
  t_params : dict (pyval float);
  t_brng : option (list float);
  t_compact : bool;
  t_dir_name : string;
  t_wls : pyval float;
  t_refls : pyval float;
  t_spectral_bands : pyval float;
  t_lamps : list string;
  t_exe_location : list string;
  t_exe_input : list string;
  t_exe_output : list string;
  t_exp_name : pyval float;
  t_ds : pyval float -> result (pyval float)
}.

(** [execute_wrapper(args)]: the call of [param_generate] on the unpacked
    tuple; [param_generate] makes no use of seven of its parameters. *)
Definition execute_wrapper (G : dict (pyval float)) (args : task) (fs : FS)
  : result FS :=
  param_generate G (t_local_params args) (t_params args) (t_wls args)
    (t_refls args) (t_spectral_bands args) (t_lamps args) (t_exp_name args)
    (t_ds args) fs.

End Wrapper.

(** ** Notions used in the statements *)

(** The outcome of a step seen through a change of the file system. *)
Definition lift {A B : Type} (f : A -> B) (r : result A) : result B :=
  match r with
  | Ok a => Ok (f a)
  | Raise e => Raise e
  end.

(** The step returns. *)
Definition succeeds {A : Type} (r : result A) : bool :=
  match r with
  | Ok _ => true
  | Raise _ => false
  end.

(** [p] is the sandbox directory, an entry below it, or one of the
    directories above it: the paths [create_symlinks] works on. *)
Definition concerns (fold_name p : string) : bool :=
  String.prefix p fold_name || String.prefix fold_name p.

(** From [fs] to [fs'] nothing is removed or changed, and every entry that
    is new satisfies [Q]. *)
Definition only_adds (Q : string -> node -> Prop) (fs fs' : FS) : Prop :=
  fs ⊆ fs' /\ forall p n, fs' !! p = Some n -> fs !! p = None -> Q p n.


(** The components of a path, split at the separators. *)
Fixpoint components_from (cur : string) (p : string) : list string :=
  match p with
  | EmptyString => [cur]
  | String c p' =>
      if Ascii.eqb c "/" then cur :: components_from "" p'
      else components_from (cur +:+ String c EmptyString) p'
  end.

Definition components (p : string) : list string := components_from "" p.

(** A relative path that names its entry directly: apart from one trailing
    separator, no component is empty, [.] or [..]. *)
Definition canonical (p : string) : bool :=
  forallb (fun c => negb (String.eqb c "" || String.eqb c "." || String.eqb c ".."))
          (components (strip_sep p)).


(** Descending order of a key. *)
Definition by_desc {A : Type} (key : A -> nat) (x y : A) : Prop :=
  (key y <= key x)%nat.

Section Notions.

Context {float : Type} `{Interpreter float}.

(** The number of values of a parameter, repetitions counted. *)
Definition cardinality (params : dict (pyval float)) (k : string) : nat :=
  length (values_of params k).

(** The order of section 4.1 of the specification: the varying names by
    descending cardinality, equal cardinalities in declaration order. *)
Definition multival_by_cardinality (params : dict (pyval float)) : list string :=
  sorted_desc (cardinality params) (varying params).

(** The values of a combination as they are printed in its identifier. *)
Definition printed_values (local_params : dict (pyval float)) : list string :=
  map (fun kv => py_str (snd kv)) local_params.

(** No name contains the character that joins the pairs. *)
Definition plain_names (local_params : dict (pyval float)) : bool :=
  forallb (fun kv => negb (contains "-" (fst kv))) local_params.

(** No printed value contains the text that starts the next pair, a dash
    followed by the next name and an underscore. *)
Fixpoint separable (local_params : dict (pyval float)) : bool :=
  match local_params with
  | kv :: rest =>
      match rest with
      | kv' :: _ =>
          negb (contains ("-" +:+ fst kv' +:+ "_") (py_str (snd kv)))
          && separable rest
      | [] => true
      end
  | [] => true
  end.

(** The layout of section 4.4 of the specification: for each logical line,
    where the value of each of its fields comes from. *)
Inductive field : Type :=
  | Blank
  | ExperimentName
  | PixelSize
  | AerosolFile
  | LayerFile
  | Param (key : string)
  | Flag (key : string)
  | Wavelength
  | Bandwidth
  | Reflectance
  | LampCount
  | Fixed256
  | Azimuth.

Definition layout : list (list field) := [
  [Blank];
  [ExperimentName];
  [PixelSize; PixelSize];
  [AerosolFile];
  [LayerFile; Param "layer_aod"; Param "layer_alpha"; Param "layer_height"];
  [Flag "double_scattering"];
  [Flag "single_scattering"];
  [Wavelength; Bandwidth];
  [Reflectance];
  [Param "air_pressure"];
  [Param "aerosol_optical_depth"; Param "angstrom_coefficient";
   Param "aerosol_height"];
  [LampCount];
  [Param "stop_limit"];
  [Blank];
  [Fixed256; Fixed256; Param "observer_elevation"];
  [Flag "observer_obstacles"];
  [Param "elevation_angle"; Azimuth];
  [Param "direct_fov"];
  [Blank];
  [Blank];
  [Blank];
  [Param "reflection_radius"];
  [Param "cloud_model"; Param "cloud_base"; Param "cloud_fraction"];
  [Blank]
].

(** The value of a field for the arguments of [create_illumina_in]: a flag
    is multiplied by one, the azimuth is shifted by the bearing and wrapped. *)
Definition resolve (exp_name layer : pyval float)
    (pixel_size : pyval float -> result (pyval float)) (P : chainmap)
    (wavelength : string) (reflectance bandwidth : pyval float)
    (lamps : list string) (bearing : pyval float) (f : field)
  : result (pyval float) :=
  match f with
  | Blank => Ok (VStr "")
  | ExperimentName => Ok exp_name
  | PixelSize => pixel_size layer
  | AerosolFile => Ok (VStr "aerosol.txt")
  | LayerFile => Ok (VStr "layer.txt")
  | Param key => cm_get P key
  | Flag key => do v <- cm_get P key; py_mul1 v
  | Wavelength => Ok (VStr wavelength)
  | Bandwidth => Ok bandwidth
  | Reflectance => Ok reflectance
  | LampCount => Ok (VInt (Z.of_nat (length lamps)))
  | Fixed256 => Ok (VInt 256)
  | Azimuth =>
      do azimuth <- cm_get P "azimuth_angle";
      do shifted <- py_add azimuth bearing;
      py_mod shifted 360
  end.

(** A line as section 4.4 words it: the values joined by spaces, left
    justified in thirty columns, then the mark and the comments. *)
Definition rendered (l : list (pyval float * string)) : string :=
  ljust 30 (String.concat " " (map (fun vc => py_str (fst vc)) l))
  +:+ " ! " +:+ String.concat " ; " (map snd l).

(** The keys [create_illumina_in] reads from [P], in the order of the
    source. *)
Definition required_keys : list string := [
  "layer_aod"; "layer_alpha"; "layer_height"; "double_scattering";
  "single_scattering"; "air_pressure"; "aerosol_optical_depth";
  "angstrom_coefficient"; "aerosol_height"; "stop_limit"; "observer_elevation";
  "observer_obstacles"; "elevation_angle"; "azimuth_angle"; "direct_fov";
  "reflection_radius"; "cloud_model"; "cloud_base"; "cloud_fraction"
].

(** The keys whose value is multiplied by one. *)
Definition flag_keys : list string :=
  ["double_scattering"; "single_scattering"; "observer_obstacles"].

(** The directory of an observer below [obs_data]. *)
Definition obs_dir (pos : float * float) : string :=
  "obs_data/" +:+ fmt_6f (fst pos) +:+ "_" +:+ fmt_6f (snd pos).

(** The values Python multiplies by one without an error, among those of
    the model: everything but [None]. *)
Definition multipliable (v : pyval float) : bool :=
  match v with
  | VBool _ | VInt _ | VFloat _ | VStr _ | VList _ | VTuple _ => true
  | VNone => false
  end.





(** A run of blanks. *)
Definition spaces (n : nat) : string := String.concat "" (replicate n " ").

(** The arguments that tell one sandbox from another, and the calls of
    [create_symlinks] made for a list of them. *)
Record sandbox : Type := Sandbox {
  sb_fold_name : string;
  sb_coords : string;
  sb_layer : pyval float;
  sb_wavelength : string
}.

Definition build_sandboxes `{Platform} (params : dict (pyval float))
    (exp_name : pyval float) (lamps : list string) (l : list sandbox) (fs : FS)
  : result FS :=
  for_each (fun fs s =>
      create_symlinks (sb_fold_name s) params exp_name (sb_coords s) (sb_layer s)
        lamps (sb_wavelength s) fs) l fs.

End Notions.

(** ** A platform and a configuration to run the model on *)

Module Sample.

(** Decimal numbers with six places stand for the floats of the examples: a
    value is kept as its multiple of [10^-6]. The three renderings are the
    ones Python prints for values of at most six significant digits between
    [1e-4] and [1e6] in magnitude, and for zero. *)
Definition dec : Type := Z.

Definition micro : Z := 1000000.

Definition zero_pad (n : nat) (s : string) : string :=
  String.concat "" (replicate (n - String.length s) "0") +:+ s.

Fixpoint strip_zeros (s : string) : string :=
  match s with
  | EmptyString => EmptyString
  | String c s' =>
      match strip_zeros s' with
      | EmptyString => if Ascii.eqb c "0" then EmptyString else String c EmptyString
      | t => String c t
      end
  end.

Definition dec_sign (x : dec) : string := if x <? 0 then "-" else "".
Definition dec_int (x : dec) : string := pretty (Z.abs x / micro).
Definition dec_frac (x : dec) : string := zero_pad 6 (pretty (Z.abs x mod micro)).

Definition dec_6f (x : dec) : string :=
  dec_sign x +:+ dec_int x +:+ "." +:+ dec_frac x.

Definition dec_str (x : dec) : string :=
  dec_sign x +:+ dec_int x +:+ "." +:+
  match strip_zeros (dec_frac x) with
  | EmptyString => "0"
  | f => f
  end.

Definition dec_g (x : dec) : string :=
  dec_sign x +:+ dec_int x +:+
  match strip_zeros (dec_frac x) with
  | EmptyString => ""
  | f => "." +:+ f
  end.

#[export] Instance dec_float : Interpreter dec := {|
  float_eqb := Z.eqb;
  float_of_Z := fun z => z * micro;
  float_add := Z.add;
  float_mod := Z.modulo;
  str_float := dec_str;
  fmt_g := dec_g;
  fmt_6f := dec_6f;
  repr_string := fun s => "'" +:+ s +:+ "'"
|}.

(** The number of components of a relative path. *)
Fixpoint depth_from (fresh : bool) (p : string) : nat :=
  match p with
  | EmptyString => 0
  | String c p' =>
      if Ascii.eqb c "/" then depth_from true p'
      else ((if fresh then 1 else 0) + depth_from false p')%nat
  end.

Fixpoint ends_with (suffix s : string) : bool :=
  String.eqb suffix s ||
  match s with
  | EmptyString => false
  | String _ s' => ends_with suffix s'
  end.

Fixpoint without_last (s : string) : string :=
  match s with
  | EmptyString => EmptyString
  | String c EmptyString => EmptyString
  | String c s' => String c (without_last s')
  end.

(** A working directory [/work]; [relpath] for two relative paths with no
    common component; the patterns [name*] and [*suffix]. *)
#[export] Instance posix : Platform := {|
  relpath := fun p start =>
    String.concat "" (replicate (depth_from true start) "../") +:+ p;
  abspath := fun p =>
    if String.prefix "/" p then strip_sep p else "/work/" +:+ strip_sep p;
  glob_match := fun pattern name =>
    match pattern with
    | String "*" suffix => ends_with suffix name
    | _ => String.prefix (without_last pattern) name
    end;
  illumpath := "/opt/illumina"
|}.

Definition f (units : Z) (millionths : Z) : pyval dec :=
  VFloat (units * micro + millionths).

(** [inputs_params.in] of the example: two elevations and two azimuths. *)
Definition config : dict (pyval dec) := [
  ("exp_name", VStr "Hawaii");
  ("batch_file_name", VStr "batch");
  ("aerosol_profile", VStr "CC");
  ("layer_type", VStr "RU");
  ("layer_aod", f 0 0);
  ("layer_alpha", f 0 700000);
  ("layer_height", VInt 2000);
  ("double_scattering", VBool true);
  ("single_scattering", VBool true);
  ("air_pressure", f 101 300000);
  ("aerosol_optical_depth", f 0 110000);
  ("angstrom_coefficient", f 0 700000);
  ("aerosol_height", VInt 2000);
  ("stop_limit", VInt 5000);
  ("observer_elevation", VInt 10);
  ("observer_obstacles", VBool false);
  ("elevation_angle", VList [VInt 45; VInt 90]);
  ("azimuth_angle", VList [VInt 0; VInt 180]);
  ("direct_fov", VInt 5);
  ("reflection_radius", VInt 10);
  ("cloud_model", VInt 0);
  ("cloud_base", VInt 0);
  ("cloud_fraction", VInt 0)
].

(** A configuration with more azimuths than elevations. *)
Definition config_three_azimuths : dict (pyval dec) := [
  ("exp_name", VStr "Hawaii");
  ("elevation_angle", VList [VInt 45; VInt 90]);
  ("azimuth_angle", VList [VInt 0; VInt 90; VInt 180])
].

Definition world : inputs := {|
  yaml_params := config;
  ds_len := 1;
  ds_obs_pos := [(45500000, -73600000)];
  obs_files := ["45.500000_-73.600000/0/srtm.bin"];
  wav_lst := [(400000000, 50000000); (500000000, 50000000)];
  refl_lst := [110000; 120000];
  lamps_lst := ["LED"];
  brng_lst := []
|}.

(** The input folder, with what an earlier run has left: a batch file and a
    sandbox below [exec]. *)
Definition folder : FS :=
  list_to_map [
    ("inputs_params.in", File Opaque);
    ("srtm.hdf5", File Opaque);
    ("wav.lst", File Opaque);
    ("refl.lst", File Opaque);
    ("lamps.lst", File Opaque);
    ("batch_1", File (Text "cd exec/old"));
    ("exec", Dir);
    ("exec/old", Dir);
    ("exec/old/execute", File (Text "./illumina"))
  ].

(** The configuration as [batches] completes it. *)
Definition params : dict (pyval dec) := extend_params world config.

(** The tables of [wav.lst] and [refl.lst] as [batches] holds them. *)
Definition wls : pyval dec := VList [f 400 0; f 500 0].
Definition refls : pyval dec := VList [f 0 110000; f 0 120000].
Definition spectral_bands : pyval dec :=
  VList [VList [f 400 0; f 50 0]; VList [f 500 0; f 50 0]].

(** A module namespace in which the four names [folder_setup] reads are
    bound, as they would be had [batches] made them global. *)
Definition bound_names : dict (pyval dec) := [
  ("refls", refls);
  ("wls", wls);
  ("spectral_bands", spectral_bands);
  ("lamps", VList [VStr "LED"])
].

(** The first combination of the matrix, its sandbox and its identifier. *)
Definition first_combination : dict (pyval dec) := [
  ("elevation_angle", VInt 45);
  ("azimuth_angle", VInt 0);
  ("wavelength", f 400 0)
].

Definition sandbox_dir : string :=
  "exec/elevation_angle_45/azimuth_angle_0/wavelength_400.0/".

Definition first_ID : string :=
  "elevation_angle_45-azimuth_angle_0-wavelength_400.0".

Definition coords : string := "45.500000_-73.600000".



(** A dataset whose cells are one kilometre wide at every layer. *)
Definition pixel_size (layer : pyval dec) : result (pyval dec) := Ok (f 1000 0).

(** A parameter whose list holds the number one and the text "1". *)
Definition config_mixed : dict (pyval dec) := [
  ("exp_name", VStr "Hawaii");
  ("cloud_model", VList [VInt 1; VStr "1"])
].

(** Two combinations that differ in the azimuth, with a negative longitude
    in the coordinates. *)
Definition combination_a : dict (pyval dec) := [
  ("observer_coordinates", VStr "45.500000_-73.600000");
  ("azimuth_angle", VInt 0)
].

Definition combination_b : dict (pyval dec) := [
  ("observer_coordinates", VStr "45.500000_-73.600000");
  ("azimuth_angle", VInt 180)
].

(** A configuration whose list of azimuths is empty. *)
Definition config_no_azimuth : dict (pyval dec) := [
  ("exp_name", VStr "Hawaii");
  ("elevation_angle", VList [VInt 45; VInt 90]);
  ("azimuth_angle", VList [])
].

(** The combination of the sample that looks south-west at 45 degrees. *)
Definition combination_180 : dict (pyval dec) := [
  ("elevation_angle", VInt 45);
  ("azimuth_angle", VInt 180);
  ("wavelength", f 400 0)
].

(** The input folder once the molecular absorption file is there. *)
Definition folder_with_asset : FS :=
  <["MolecularAbs.txt" := File Opaque]> folder.

End Sample.

(** * Properties *)

(** ** The stable descending sort *)

Section Sorting.

Context {A : Type} (key : A -> nat).

Lemma insert_desc_perm (x : A) (l : list A) : insert_desc key x l ≡ₚ x :: l.
Proof.
  induction l as [|y l IH]; simpl; [done|].
  destruct (key y <=? key x)%nat; [done|].
  rewrite IH. apply Permutation_swap.
Qed.

Lemma sorted_desc_perm (l : list A) : sorted_desc key l ≡ₚ l.
Proof.
  induction l as [|x l IH]; simpl; [done|].
  unfold sorted_desc in *. simpl. rewrite insert_desc_perm. by rewrite IH.
Qed.

Local Abbreviation desc := (by_desc key).

Lemma insert_desc_sorted (x : A) (l : list A) :
  StronglySorted desc l -> StronglySorted desc (insert_desc key x l).
Proof.
  induction l as [|y l IH]; simpl; intros Hs.
  - repeat constructor.
  - apply StronglySorted_inv in Hs as [Hl Hy].
    destruct (Nat.leb_spec (key y) (key x)) as [Hle|Hlt].
    + constructor; [by constructor|].
      constructor; [exact Hle|].
      eapply Forall_impl; [exact Hy|]. unfold by_desc. simpl. intros z Hz. lia.
    + constructor; [by apply IH|].
      rewrite insert_desc_perm. constructor; [unfold by_desc; lia|exact Hy].
Qed.

Lemma sorted_desc_sorted (l : list A) : StronglySorted desc (sorted_desc key l).
Proof.
  induction l as [|x l IH]; [constructor|].
  unfold sorted_desc in *. simpl. by apply insert_desc_sorted.
Qed.

(** Elements of equal key come out in the order they went in. *)
Lemma insert_desc_stable (n : nat) (x : A) (l : list A) :
  filter (fun y => key y = n) (insert_desc key x l)
  = filter (fun y => key y = n) (x :: l).
Proof.
  induction l as [|y l IH]; simpl; [done|].
  destruct (Nat.leb_spec (key y) (key x)) as [Hle|Hlt]; [done|].
  rewrite filter_cons, IH, !filter_cons.
  repeat case_decide; try done; lia.
Qed.

Lemma sorted_desc_stable (n : nat) (l : list A) :
  filter (fun y => key y = n) (sorted_desc key l) = filter (fun y => key y = n) l.
Proof.
  induction l as [|x l IH]; [done|].
  unfold sorted_desc in *. simpl. rewrite insert_desc_stable, !filter_cons.
  by rewrite IH.
Qed.

End Sorting.

(** ** The Cartesian product *)

Lemma product_length {A : Type} (ls : list (list A)) :
  length (product ls) = foldr Nat.mul 1%nat (map length ls).
Proof.
  induction ls as [|l ls IH]; [done|].
  change (product (l :: ls)) with (x ← l; t ← product ls; [x :: t]).
  simpl map. simpl foldr. rewrite <- IH. clear IH.
  induction l as [|x l IHl]; [done|].
  rewrite bind_cons, length_app, IHl. simpl. f_equal.
  generalize (product ls). intros r.
  induction r as [|t r IHr]; [done|].
  rewrite bind_cons. simpl. by f_equal.
Qed.

Lemma product_elem {A : Type} (ls : list (list A)) (t : list A) :
  t ∈ product ls <-> Forall2 (fun x l => x ∈ l) t ls.
Proof.
  revert t. induction ls as [|l ls IH]; intros t; simpl.
  - rewrite list_elem_of_singleton. split; [intros ->; constructor|].
    by intros Hf; inversion Hf.
  - rewrite list_elem_of_bind. split.
    + intros (x & Ht & Hx). apply list_elem_of_bind in Ht as (r & Ht & Hr).
      apply list_elem_of_singleton in Ht as ->. constructor; [done|]. by apply IH.
    + intros Hf. inversion Hf as [|x l' r ls' Hx Hr]; subst.
      exists x. split; [|done]. apply list_elem_of_bind. exists r.
      split; [by apply list_elem_of_singleton|]. by apply IH.
Qed.

Lemma foldr_mul_perm (l l' : list nat) :
  l ≡ₚ l' -> foldr Nat.mul 1%nat l = foldr Nat.mul 1%nat l'.
Proof. induction 1; simpl; lia. Qed.

(** ** The parameter matrix *)

Section Matrix.

Context {float : Type} `{Interpreter float}.

Implicit Types (params : dict (pyval float)).

Lemma multival_perm params : multival_of params ≡ₚ varying params.
Proof. apply sorted_desc_perm. Qed.

(** C9. The matrix has as many combinations as the product of the
    cardinalities of the varying parameters; a cardinality is the length of
    the value list, so a value that is repeated in its list is counted, and
    enumerated, once per occurrence. *)
Theorem param_vals_count params :
  length (param_vals_of params)
  = foldr Nat.mul 1%nat (map (cardinality params) (varying params)).
Proof.
  unfold param_vals_of, param_space_of. rewrite product_length, map_map.
  apply foldr_mul_perm. apply Permutation_map, multival_perm.
Qed.

Lemma param_vals_positions params vals :
  vals ∈ param_vals_of params ->
  Forall2 (fun v k => v ∈ values_of params k) vals (multival_of params).
Proof.
  intros Hin. apply product_elem in Hin. unfold param_space_of in Hin.
  revert Hin. generalize (multival_of params). intros mv. revert vals.
  induction mv as [|k mv IH]; intros vals Hf; inversion Hf; subst; constructor; auto.
Qed.

(** C4, as the code has it. The varying names are ordered by descending
    length of the name, names of equal length staying in declaration order;
    the product is enumerated in that order, each combination holding one
    value of each name, position by position. *)
Theorem multival_sorted_by_name_length params :
  multival_of params ≡ₚ varying params
  /\ StronglySorted (by_desc String.length) (multival_of params)
  /\ (forall n : nat,
        filter (fun k => String.length k = n) (multival_of params)
        = filter (fun k => String.length k = n) (varying params))
  /\ param_vals_of params = product (map (values_of params) (multival_of params))
  /\ (forall vals, vals ∈ param_vals_of params ->
        Forall2 (fun v k => v ∈ values_of params k) vals (multival_of params)).
Proof.
  split; [apply multival_perm|].
  split; [apply sorted_desc_sorted|].
  split; [intros n; apply sorted_desc_stable|].
  split; [done|].
  apply param_vals_positions.
Qed.

End Matrix.

(** ** Dictionaries *)

Section DictFacts.

Context {V : Type}.

Implicit Types (d : dict V) (k : string) (v : V).

Lemma dict_lookup_set_eq k v d : dict_lookup k (dict_set k v d) = Some v.
Proof.
  induction d as [|[k' v'] d IH]; simpl.
  - by rewrite String.eqb_refl.
  - destruct (String.eqb_spec k' k) as [->|Hne]; simpl.
    + by rewrite String.eqb_refl.
    + by destruct (String.eqb_spec k' k).
Qed.

Lemma dict_lookup_set_ne k k' v d :
  k <> k' -> dict_lookup k' (dict_set k v d) = dict_lookup k' d.
Proof.
  intros Hne. induction d as [|[k'' v''] d IH]; simpl.
  - by destruct (String.eqb_spec k k').
  - destruct (String.eqb_spec k'' k) as [->|Hne']; simpl.
    + destruct (String.eqb_spec k k'); [done|]. done.
    + by rewrite IH.
Qed.




End DictFacts.


(** ** The zenith rule *)

Section Zenith.

Context {float : Type} `{Interpreter float} `{Platform}.

Implicit Types (params : dict (pyval float)).






End Zenith.

(** ** Strings *)

Lemma append_cons (c : ascii) (a b : string) : String c a +:+ b = String c (a +:+ b).
Proof. reflexivity. Qed.

Lemma append_nil_l (b : string) : "" +:+ b = b.
Proof. reflexivity. Qed.

Lemma append_assoc (a b c : string) : (a +:+ b) +:+ c = a +:+ (b +:+ c).
Proof.
  induction a as [|x a IH]; [done|]. rewrite !append_cons. by rewrite IH.
Qed.

Lemma append_nil_r (a : string) : a +:+ "" = a.
Proof. induction a as [|x a IH]; [done|]. rewrite append_cons. by rewrite IH. Qed.

Lemma prefix_nil (s : string) : String.prefix "" s = true.
Proof. by destruct s. Qed.

Lemma prefix_cons (c c' : ascii) (s t : string) :
  String.prefix (String c s) (String c' t)
  = bool_decide (c = c') && String.prefix s t.
Proof.
  simpl. destruct (ascii_dec c c') as [->|Hne].
  - by rewrite bool_decide_eq_true_2.
  - by rewrite bool_decide_eq_false_2.
Qed.

Lemma prefix_iff (s t : string) :
  String.prefix s t = true <-> exists r, t = s +:+ r.
Proof.
  revert t. induction s as [|c s IH]; intros t.
  - rewrite prefix_nil. split; [|done]. intros _. by exists t.
  - destruct t as [|c' t].
    + simpl. split; [done|]. by intros [r Hr].
    + rewrite prefix_cons, andb_true_iff, bool_decide_eq_true, IH. split.
      * intros [-> [r ->]]. by exists r.
      * intros [r Hr]. rewrite append_cons in Hr. injection Hr as -> ->.
        split; [done|]. by exists r.
Qed.

Lemma prefix_app (s r : string) : String.prefix s (s +:+ r) = true.
Proof. apply prefix_iff. by exists r. Qed.

Lemma prefix_refl (s : string) : String.prefix s s = true.
Proof. apply prefix_iff. exists "". by rewrite append_nil_r. Qed.

Lemma prefix_trans (a b c : string) :
  String.prefix a b = true -> String.prefix b c = true -> String.prefix a c = true.
Proof.
  rewrite !prefix_iff. intros [r ->] [r' ->]. exists (r +:+ r').
  by rewrite append_assoc.
Qed.

(** Two prefixes of one string are prefixes of one another. *)
Lemma prefix_comparable (a b s : string) :
  String.prefix a s = true -> String.prefix b s = true ->
  String.prefix a b = true \/ String.prefix b a = true.
Proof.
  revert b s. induction a as [|c a IH]; intros b s Ha Hb.
  - left. apply prefix_nil.
  - destruct b as [|c' b]; [right; apply prefix_nil|].
    destruct s as [|c'' s]; [done|].
    rewrite prefix_cons, andb_true_iff, bool_decide_eq_true in Ha, Hb.
    destruct Ha as [-> Ha], Hb as [-> Hb].
    rewrite !prefix_cons, !bool_decide_eq_true_2 by done. simpl. by eapply IH.
Qed.

Lemma strip_sep_single (c : ascii) :
  strip_sep (String c "") = if Ascii.eqb c "/" then "" else String c "".
Proof. reflexivity. Qed.

Lemma strip_sep_cons (c c' : ascii) (p : string) :
  strip_sep (String c (String c' p)) = String c (strip_sep (String c' p)).
Proof. reflexivity. Qed.

Lemma strip_sep_prefix (p : string) : String.prefix (strip_sep p) p = true.
Proof.
  induction p as [|c p IH]; [done|].
  destruct p as [|c' p].
  - rewrite strip_sep_single. destruct (Ascii.eqb c "/"); [apply prefix_nil|].
    apply prefix_refl.
  - rewrite strip_sep_cons, prefix_cons, bool_decide_eq_true_2 by done. exact IH.
Qed.

Lemma ancestors_from_prefix (seen p a : string) :
  a ∈ ancestors_from seen p -> exists x y, p = x +:+ y /\ a = seen +:+ x.
Proof.
  revert seen. induction p as [|c p IH]; simpl; intros seen Hin.
  - by apply elem_of_nil in Hin.
  - apply elem_of_app in Hin as [Hin|Hin].
    + destruct (Ascii.eqb c "/" && negb (String.eqb seen "")); [|by apply elem_of_nil in Hin].
      apply list_elem_of_singleton in Hin as ->.
      exists "", (String c p). by rewrite append_nil_r.
    + apply IH in Hin as (x & y & -> & ->).
      exists (String c x), y. split; [done|]. by rewrite append_assoc.
Qed.

Lemma ancestors_prefix (p a : string) :
  a ∈ ancestors p -> String.prefix a p = true.
Proof.
  intros Hin. apply ancestors_from_prefix in Hin as (x & y & -> & ->).
  rewrite append_nil_l. apply prefix_app.
Qed.

Lemma dirname_from_prefix (seen dir p : string) :
  dirname_from seen dir p = dir
  \/ exists x y, p = x +:+ y /\ dirname_from seen dir p = seen +:+ x.
Proof.
  revert seen dir. induction p as [|c p IH]; simpl; intros seen dir; [by left|].
  destruct (Ascii.eqb_spec c "/") as [->|Hc].
  - destruct (IH (seen +:+ "/") seen) as [->|(x & y & -> & ->)].
    + right. exists "", (String "/" p). by rewrite append_nil_r.
    + right. exists (String "/" x), y. split; [done|]. by rewrite append_assoc.
  - destruct (IH (seen +:+ String c "") dir) as [->|(x & y & -> & ->)].
    + by left.
    + right. exists (String c x), y. split; [done|]. by rewrite append_assoc.
Qed.

Lemma dirname_prefix (p : string) : String.prefix (dirname p) p = true.
Proof.
  unfold dirname. destruct (dirname_from_prefix "" "" p) as [->|(x & y & -> & ->)].
  - apply prefix_nil.
  - rewrite append_nil_l. apply prefix_app.
Qed.

(** ** Results *)

Lemma bind_Ok {A B : Type} (r : result A) (k : A -> result B) (b : B) :
  bind r k = Ok b -> exists a, r = Ok a /\ k a = Ok b.
Proof. destruct r as [a|e]; simpl; [|done]. intros Hk. by exists a. Qed.

Ltac inv_bind H :=
  let x := fresh "x" in
  let Hx := fresh "Hx" in
  apply bind_Ok in H as (x & Hx & H).

Ltac inv_binds H :=
  repeat match type of H with
  | bind _ _ = Ok _ => inv_bind H
  end.

Lemma for_each_preserves {A S : Type} (R : S -> S -> Prop) `{!PreOrder R}
    (body : S -> A -> result S) (l : list A) (st st' : S) :
  (forall s x s', body s x = Ok s' -> R s s') ->
  for_each body l st = Ok st' -> R st st'.
Proof.
  intros Hbody. revert st. induction l as [|x l IH]; simpl; intros st Hrun.
  - by injection Hrun as ->.
  - inv_bind Hrun. transitivity x0; [by eapply Hbody|by apply IH].
Qed.

(** ** The file system only grows under [makedirs] and [symlink] *)

Section Growth.

Context {float : Type} `{Interpreter float} `{Platform}.

Implicit Types (fs : FS).

Lemma symlink_extends src dst fs fs' : symlink src dst fs = Ok fs' -> fs ⊆ fs'.
Proof.
  unfold symlink. destruct (fs !! dst) eqn:Hdst; [done|].
  destruct (parent_ok fs dst); [|done]. intros [= <-]. by apply insert_subseteq.
Qed.

Lemma mkdir_chain_extends ps fs fs' : mkdir_chain ps fs = Ok fs' -> fs ⊆ fs'.
Proof.
  revert fs. induction ps as [|p ps IH]; simpl; intros fs Hrun.
  - by injection Hrun as ->.
  - destruct (fs !! p) as [[]|] eqn:Hp; try done; [by apply IH|].
    transitivity (<[p := Dir]> fs); [by apply insert_subseteq|by apply IH].
Qed.

Lemma makedirs_extends p fs fs' :
  makedirs p fs = Ok fs' -> fs ⊆ fs' /\ fs' !! strip_sep p = Some Dir.
Proof.
  unfold makedirs. destruct (fs !! strip_sep p) eqn:Hp; [done|].
  intros Hrun. inv_bind Hrun. injection Hrun as <-.
  pose proof (mkdir_chain_extends _ _ _ Hx) as Hsub. split.
  - apply map_subseteq_spec. intros i v Hi.
    destruct (decide (strip_sep p = i)) as [<-|Hne]; [congruence|].
    rewrite lookup_insert_ne by done. by eapply lookup_weaken.
  - apply lookup_insert_eq.
Qed.

Lemma isdir_mono fs fs' p : fs ⊆ fs' -> isdir fs p = true -> isdir fs' p = true.
Proof.
  unfold isdir. intros Hsub. destruct (fs !! strip_sep p) as [[]|] eqn:Hp; try done.
  by rewrite (lookup_weaken _ _ _ _ Hp Hsub).
Qed.

Lemma for_each_symlink_extends {A : Type} (body : FS -> A -> result FS)
    (l : list A) fs fs' :
  (forall s x s', body s x = Ok s' -> s ⊆ s') ->
  for_each body l fs = Ok fs' -> fs ⊆ fs'.
Proof. apply (for_each_preserves (⊆)). Qed.

(** A sandbox that has been built is a directory, and nothing that was
    there before is lost. *)
Lemma create_symlinks_extends fold_name params exp_name coords layer lamps
    wavelength fs fs' :
  create_symlinks fold_name params exp_name coords layer lamps wavelength fs = Ok fs' ->
  fs ⊆ fs' /\ isdir fs' fold_name = true.
Proof.
  unfold create_symlinks. destruct (isdir fs fold_name) eqn:Hdir.
  { intros [= <-]. done. }
  intros Hrun. inv_bind Hrun.
  apply makedirs_extends in Hx as [Hsub Hleaf].
  assert (Hgrow : x ⊆ fs').
  { inv_binds Hrun.
    repeat match goal with
    | Hs : symlink _ _ _ = Ok _ |- _ => apply symlink_extends in Hs
    | Hs : for_each _ _ _ = Ok _ |- _ =>
        apply for_each_symlink_extends in Hs;
        [|intros ? ? ? Hb; inv_binds Hb; by eapply symlink_extends]
    end.
    repeat first [eassumption | etransitivity; [eassumption|]]. }
  split; [by transitivity x|].
  apply (isdir_mono x); [done|]. unfold isdir. by rewrite Hleaf.
Qed.


Lemma create_symlinks_existing fold_name params exp_name coords layer lamps
    wavelength fs :
  isdir fs fold_name = true ->
  create_symlinks fold_name params exp_name coords layer lamps wavelength fs = Ok fs.
Proof. intros Hdir. unfold create_symlinks. by rewrite Hdir. Qed.

Lemma build_sandboxes_extends params exp_name lamps (l : list sandbox) fs fs' :
  build_sandboxes params exp_name lamps l fs = Ok fs' ->
  fs ⊆ fs' /\ Forall (fun s => isdir fs' (sb_fold_name s) = true) l.
Proof.
  unfold build_sandboxes. revert fs. induction l as [|s l IH]; simpl; intros fs Hrun.
  - injection Hrun as <-. by split.
  - inv_bind Hrun. apply create_symlinks_extends in Hx as [Hsub Hdir].
    apply IH in Hrun as [Hsub' Hall]. split; [by transitivity x|].
    constructor; [|done]. by eapply isdir_mono.
Qed.

Lemma build_sandboxes_existing params exp_name lamps (l : list sandbox) fs :
  Forall (fun s => isdir fs (sb_fold_name s) = true) l ->
  build_sandboxes params exp_name lamps l fs = Ok fs.
Proof.
  unfold build_sandboxes. induction 1 as [|s l Hs Hl IH]; simpl; [done|].
  by rewrite create_symlinks_existing.
Qed.

(** C8. When the sandbox directory exists, [create_symlinks] returns the
    file system as it is: no directory and no link is created. Hence a
    sandbox that has been built is left alone by a second call, and building
    the sandboxes of a list of combinations a second time changes nothing. *)
Theorem create_symlinks_idempotent fold_name params exp_name coords layer lamps
    wavelength fs :
  (isdir fs fold_name = true ->
   create_symlinks fold_name params exp_name coords layer lamps wavelength fs = Ok fs)
  /\ (forall fs',
        create_symlinks fold_name params exp_name coords layer lamps wavelength fs
        = Ok fs' ->
        create_symlinks fold_name params exp_name coords layer lamps wavelength fs'
        = Ok fs')
  /\ (forall (l : list sandbox) fs',
        build_sandboxes params exp_name lamps l fs = Ok fs' ->
        build_sandboxes params exp_name lamps l fs' = Ok fs').
Proof.
  split; [apply create_symlinks_existing|]. split.
  - intros fs' Hrun. apply create_symlinks_extends in Hrun as [_ Hdir].
    by apply create_symlinks_existing.
  - intros l fs' Hrun. apply build_sandboxes_extends in Hrun as [_ Hall].
    by apply build_sandboxes_existing.
Qed.

End Growth.

(** ** Construction does not look at the assets *)

Section Assets.

Context {float : Type} `{Interpreter float} `{Platform}.

Implicit Types (fs : FS).

Lemma concerns_prefix_of_entry fold_name x q :
  String.prefix q (fold_name +:+ x) = true -> concerns fold_name q = true.
Proof.
  intros Hq. unfold concerns. apply orb_true_iff.
  by apply (prefix_comparable q fold_name (fold_name +:+ x)); [|apply prefix_app].
Qed.

Lemma concerns_prefix fold_name q :
  String.prefix q fold_name = true -> concerns fold_name q = true.
Proof. intros Hq. unfold concerns. by rewrite Hq. Qed.

Lemma isdir_delete a fs p :
  strip_sep p <> a -> isdir (delete a fs) p = isdir fs p.
Proof. intros Hne. unfold isdir. by rewrite lookup_delete_ne. Qed.

Lemma parent_ok_delete a fs p :
  strip_sep (dirname p) <> a -> parent_ok (delete a fs) p = parent_ok fs p.
Proof. intros Hne. unfold parent_ok. by rewrite isdir_delete. Qed.

Lemma symlink_delete a src dst fs :
  dst <> a -> strip_sep (dirname dst) <> a ->
  symlink src dst (delete a fs) = lift (delete a) (symlink src dst fs).
Proof.
  intros Hdst Hpar. unfold symlink.
  rewrite lookup_delete_ne by done. destruct (fs !! dst); [done|].
  rewrite parent_ok_delete by done. destruct (parent_ok fs dst); [|done].
  simpl. by rewrite delete_insert_ne.
Qed.

Lemma mkdir_chain_delete a ps fs :
  a ∉ ps -> mkdir_chain ps (delete a fs) = lift (delete a) (mkdir_chain ps fs).
Proof.
  revert fs. induction ps as [|p ps IH]; simpl; intros fs Hnot; [done|].
  apply not_elem_of_cons in Hnot as [Hne Hnot].
  rewrite lookup_delete_ne by done. destruct (fs !! p) as [[]|]; try done.
  - by apply IH.
  - rewrite <- delete_insert_ne by done. by apply IH.
Qed.

Lemma makedirs_delete a p fs :
  concerns p a = false ->
  makedirs p (delete a fs) = lift (delete a) (makedirs p fs).
Proof.
  intros Ha. unfold makedirs.
  assert (Hkey : strip_sep p <> a).
  { intros <-. by rewrite concerns_prefix in Ha by apply strip_sep_prefix. }
  rewrite lookup_delete_ne by done. destruct (fs !! strip_sep p); [done|].
  rewrite mkdir_chain_delete.
  - destruct (mkdir_chain (ancestors (strip_sep p)) fs); simpl; [|done].
    by rewrite delete_insert_ne.
  - intros Hin. apply ancestors_prefix in Hin.
    rewrite concerns_prefix in Ha; [done|].
    eapply prefix_trans; [exact Hin|apply strip_sep_prefix].
Qed.

Lemma for_each_delete {A : Type} a (body : FS -> A -> result FS) (l : list A) fs :
  (forall s x, body (delete a s) x = lift (delete a) (body s x)) ->
  for_each body l (delete a fs) = lift (delete a) (for_each body l fs).
Proof.
  intros Hbody. revert fs. induction l as [|x l IH]; simpl; intros fs; [done|].
  rewrite Hbody. destruct (body fs x); simpl; [apply IH|done].
Qed.

(** A link placed in the sandbox. *)
Lemma symlink_entry_delete a fold_name x src fs :
  concerns fold_name a = false ->
  symlink src (fold_name +:+ x) (delete a fs)
  = lift (delete a) (symlink src (fold_name +:+ x) fs).
Proof.
  intros Ha. apply symlink_delete.
  - intros <-. by rewrite (concerns_prefix_of_entry _ x) in Ha by apply prefix_refl.
  - intros <-. rewrite (concerns_prefix_of_entry _ x) in Ha; [done|].
    eapply prefix_trans; [apply strip_sep_prefix|apply dirname_prefix].
Qed.

Lemma seq_delete {A : Type} a (r : result A) (k k' : A -> result FS) :
  (forall x, k' x = lift (delete a) (k x)) ->
  bind r k' = lift (delete a) (bind r k).
Proof. intros Hk. destruct r; simpl; [apply Hk|done]. Qed.

Lemma step_delete a (op op' : result FS) (k : FS -> result FS) :
  op' = lift (delete a) op ->
  (forall s, k (delete a s) = lift (delete a) (k s)) ->
  bind op' k = lift (delete a) (bind op k).
Proof. intros -> Hk. destruct op; simpl; [apply Hk|done]. Qed.

(** C7, as the code has it. Whether an asset is present or missing makes
    no difference to the construction of a sandbox: on the file system from
    which the asset has been removed, [create_symlinks] raises the same
    error or creates the same directory and the same links, the one to the
    missing asset included. *)
Theorem create_symlinks_ignores_assets fold_name params exp_name coords layer
    lamps wavelength fs asset :
  concerns fold_name asset = false ->
  create_symlinks fold_name params exp_name coords layer lamps wavelength
    (delete asset fs)
  = lift (delete asset)
      (create_symlinks fold_name params exp_name coords layer lamps wavelength fs).
Proof.
  intros Ha. unfold create_symlinks.
  rewrite isdir_delete.
  2:{ intros <-. by rewrite concerns_prefix in Ha by apply strip_sep_prefix. }
  destruct (isdir fs fold_name); [done|].
  repeat first
    [ apply step_delete;
      [ first [ by apply makedirs_delete
              | by apply symlink_entry_delete
              | apply for_each_delete; intros ? ?; cbv beta;
                repeat (apply seq_delete; intros ?);
                by apply symlink_entry_delete ]
      | intros ? ]
    | apply seq_delete; intros ? ].
  apply for_each_delete. intros ? ?. cbv beta.
  by apply symlink_entry_delete.
Qed.

End Assets.

(** ** What [batches] clears before the matrix is processed *)

Lemma contains_here (t s : string) : String.prefix t s = true -> contains t s = true.
Proof. intros Hp. destruct s; simpl; simpl in Hp; by rewrite Hp. Qed.

Lemma contains_app (t a b : string) : contains t (a +:+ t +:+ b) = true.
Proof.
  induction a as [|c a IH].
  - rewrite append_nil_l. apply contains_here, prefix_app.
  - rewrite append_cons. change (contains t (String c (a +:+ t +:+ b)))
      with (String.prefix t (String c (a +:+ t +:+ b)) || contains t (a +:+ t +:+ b)).
    rewrite IH. apply orb_true_r.
Qed.

Lemma at_or_under_entry (d f : string) :
  contains "/" f = false -> at_or_under d f = true -> f = d.
Proof.
  intros Hf. unfold at_or_under. rewrite orb_true_iff.
  intros [Heq|Hpre]; [by apply String.eqb_eq|].
  apply prefix_iff in Hpre as [r ->]. rewrite append_assoc in Hf.
  by rewrite contains_app in Hf.
Qed.

Section Clearing.

Context {float : Type} `{Interpreter float} `{Platform}.

Implicit Types (fs : FS).

Lemma glob_elem pattern fs f :
  f ∈ glob pattern fs
  <-> is_Some (fs !! f) /\ contains "/" f = false /\ glob_match pattern f = true.
Proof.
  unfold glob. rewrite list_elem_of_filter, andb_true_iff, negb_true_iff.
  rewrite list_elem_of_In, in_map_iff. split.
  - intros [[Hs Hm] ([k n] & <- & Hin)]. simpl in *. split; [|done].
    apply list_elem_of_In, elem_of_map_to_list in Hin. by exists n.
  - intros ([n Hn] & Hs & Hm). split; [done|]. exists (f, n). split; [done|].
    by apply list_elem_of_In, elem_of_map_to_list.
Qed.

Lemma remove_all_lookup (l : list string) fs fs1 p :
  for_each (fun fs fname => remove fname fs) l fs = Ok fs1 ->
  (p ∈ l -> fs1 !! p = None) /\ (p ∉ l -> fs1 !! p = fs !! p).
Proof.
  revert fs. induction l as [|f l IH]; simpl; intros fs Hrun.
  - injection Hrun as <-. split; [by intros ?%elem_of_nil|done].
  - inv_bind Hrun. apply IH in Hrun as [Hin Hout].
    assert (Hx' : x = delete f fs).
    { unfold remove in Hx. destruct (fs !! f) as [[]|]; by inversion Hx. }
    subst x. split.
    + intros Hp. destruct (decide (p ∈ l)) as [Hl|Hl]; [by apply Hin|].
      apply elem_of_cons in Hp as [->|Hp]; [|done].
      rewrite Hout by done. apply lookup_delete_eq.
    + intros Hp. apply not_elem_of_cons in Hp as [Hne Hp].
      rewrite Hout by done. by apply lookup_delete_ne.
Qed.

Lemma rmtree_gone d fs p :
  fs !! strip_sep d = None \/ fs !! strip_sep d = Some Dir ->
  at_or_under (strip_sep d) p = true -> rmtree d fs !! p = None.
Proof.
  intros Hd Hp. unfold rmtree.
  assert (Hnone : filter (fun kv => at_or_under (strip_sep d) (fst kv) = false) fs !! p
                  = None).
  { apply map_lookup_filter_None. right. intros n _. simpl. by rewrite Hp. }
  by destruct Hd as [->| ->].
Qed.

Lemma rmtree_frame d fs p :
  at_or_under (strip_sep d) p = false -> rmtree d fs !! p = fs !! p.
Proof.
  intros Hp. unfold rmtree.
  assert (Hsame : filter (fun kv => at_or_under (strip_sep d) (fst kv) = false) fs !! p
                  = fs !! p).
  { destruct (fs !! p) as [n|] eqn:Hn.
    - by apply map_lookup_filter_Some.
    - apply map_lookup_filter_None. by left. }
  by destruct (fs !! strip_sep d) as [[]|].
Qed.

Lemma mkdir_chain_frame ps fs fs' p :
  mkdir_chain ps fs = Ok fs' -> p ∉ ps -> fs' !! p = fs !! p.
Proof.
  revert fs. induction ps as [|q ps IH]; simpl; intros fs Hrun Hnot.
  - by injection Hrun as <-.
  - apply not_elem_of_cons in Hnot as [Hne Hnot].
    destruct (fs !! q) as [[]|] eqn:Hq; try done; [by apply IH|].
    rewrite (IH _ Hrun Hnot). by apply lookup_insert_ne.
Qed.

Lemma makedirs_frame q fs fs' p :
  makedirs q fs = Ok fs' ->
  p <> strip_sep q -> p ∉ ancestors (strip_sep q) -> fs' !! p = fs !! p.
Proof.
  unfold makedirs. destruct (fs !! strip_sep q); [done|].
  intros Hrun Hne Hnot. inv_bind Hrun. injection Hrun as <-.
  rewrite lookup_insert_ne by done. by eapply mkdir_chain_frame.
Qed.

Lemma write_file_lookup q c fs fs' p :
  write_file q c fs = Ok fs' ->
  fs' !! p = if decide (q = p) then Some (File c) else fs !! p.
Proof.
  unfold write_file. intros Hrun.
  assert (Hins : fs' = <[q := File c]> fs).
  { destruct (fs !! q) as [[]|]; try done; by destruct (parent_ok fs q); inversion Hrun. }
  subst fs'. apply lookup_insert.
Qed.

(** After [clear_exec], the execution directory is new and empty. *)
Lemma clear_exec_fresh fs fs' p :
  clear_exec "exec/" fs = Ok fs' ->
  at_or_under "exec" p = true ->
  fs' !! p = if String.eqb p "exec" then Some Dir else None.
Proof.
  unfold clear_exec, makedirs.
  change (strip_sep "exec/") with "exec". change (ancestors "exec") with (@nil string).
  intros Hrun Hp.
  assert (Hd : fs !! "exec" = None \/ fs !! "exec" = Some Dir).
  { destruct (fs !! "exec") as [[]|] eqn:Hd; auto.
    - exfalso. unfold rmtree in Hrun. change (strip_sep "exec/") with "exec" in Hrun.
      by rewrite Hd, Hd in Hrun.
    - exfalso. unfold rmtree in Hrun. change (strip_sep "exec/") with "exec" in Hrun.
      by rewrite Hd, Hd in Hrun. }
  pose proof (rmtree_gone "exec/" fs) as Hgone.
  change (strip_sep "exec/") with "exec" in Hgone.
  rewrite (Hgone "exec" Hd eq_refl) in Hrun. simpl in Hrun. injection Hrun as <-.
  destruct (String.eqb_spec p "exec") as [->|Hne].
  - apply lookup_insert_eq.
  - rewrite lookup_insert_ne by done. by apply Hgone.
Qed.

Lemma clear_exec_frame fs fs' p :
  clear_exec "exec/" fs = Ok fs' ->
  at_or_under "exec" p = false -> fs' !! p = fs !! p.
Proof.
  unfold clear_exec. intros Hrun Hp.
  rewrite (makedirs_frame _ _ _ p Hrun).
  - by apply rmtree_frame.
  - intros ->. done.
  - change (ancestors (strip_sep "exec/")) with (@nil string). apply not_elem_of_nil.
Qed.

Lemma for_each_frame {A : Type} (body : FS -> A -> result FS) (l : list A)
    fs fs' p :
  (forall s x s', body s x = Ok s' -> s' !! p = s !! p) ->
  for_each body l fs = Ok fs' -> fs' !! p = fs !! p.
Proof.
  intros Hbody. revert fs. induction l as [|x l IH]; simpl; intros fs Hrun.
  - by injection Hrun as <-.
  - inv_bind Hrun. rewrite (IH _ Hrun). by eapply Hbody.
Qed.

Lemma under_obs_data (x : string) : at_or_under "obs_data" ("obs_data/" +:+ x) = true.
Proof.
  unfold at_or_under. apply orb_true_iff. right.
  change ("obs_data" +:+ "/") with "obs_data/". apply prefix_app.
Qed.

Lemma obs_data_key (x : string) :
  at_or_under "obs_data" (strip_sep ("obs_data/" +:+ x)) = true.
Proof.
  destruct x as [|c x]; [done|].
  change (strip_sep ("obs_data/" +:+ String c x))
    with ("obs_data/" +:+ strip_sep (String c x)).
  apply under_obs_data.
Qed.

Lemma obs_data_ancestors (x a : string) :
  a ∈ ancestors (strip_sep ("obs_data/" +:+ x)) -> at_or_under "obs_data" a = true.
Proof.
  destruct x as [|c x]; [by intros ?%elem_of_nil|].
  change (strip_sep ("obs_data/" +:+ String c x))
    with ("obs_data/" +:+ strip_sep (String c x)).
  change (ancestors ("obs_data/" +:+ strip_sep (String c x)))
    with ("obs_data" :: ancestors_from "obs_data/" (strip_sep (String c x))).
  intros [->|Hin]%elem_of_cons; [done|].
  apply ancestors_from_prefix in Hin as (u & v & _ & ->). apply under_obs_data.
Qed.

(** The preprocessing works below [obs_data] and nowhere else. *)
Lemma preprocess_frame (inp : inputs) fs fs' p :
  preprocess inp fs = Ok fs' ->
  at_or_under "obs_data" p = false -> fs' !! p = fs !! p.
Proof.
  unfold preprocess. intros Hrun Hp. inv_bind Hrun. injection Hrun as <-.
  transitivity (x !! p).
  - generalize (obs_files inp). intros l. revert x Hx.
    induction l as [|f l IH] using rev_ind; intros x Hx; [done|].
    rewrite foldl_app. simpl. rewrite lookup_insert_ne; [by apply IH|].
    intros <-. by rewrite under_obs_data in Hp.
  - apply (for_each_frame _ _ _ _ p) in Hx.
    + rewrite Hx. by apply rmtree_frame.
    + intros s pos s' Hs. apply (for_each_frame _ _ _ _ p) in Hs; [done|].
      intros s1 i s1' Hmk.
      apply (makedirs_frame _ _ _ p) in Hmk; [done| |].
      * intros ->. by rewrite obs_data_key in Hp.
      * intros Hin. apply obs_data_ancestors in Hin. by rewrite Hin in Hp.
Qed.

(** C10. When [batches] reaches the call of [folder_setup], every entry
    of the working directory that matched [<batch_file_name>*] at the start
    has been removed, and none of them is back unless the run itself has just
    created it under one of its own three names; the execution directory
    [exec] is a new, empty directory. No sandbox, run script or batch file of
    an earlier run is left when the first combination is processed. *)
Theorem batches_starts_clean (inp : inputs) (batch_name : option string) fs pre :
  batches_prologue inp batch_name fs = Ok pre ->
  exists name fs1,
    dict_get "batch_file_name" (with_batch_name batch_name (yaml_params inp)) = Ok name
    /\ clear_batch_files (with_batch_name batch_name (yaml_params inp)) fs = Ok fs1
    /\ (forall f, is_Some (fs !! f) -> contains "/" f = false ->
          glob_match (py_str name +:+ "*") f = true ->
          fs1 !! f = None
          /\ (p_fs pre !! f = None \/ f ∈ ["obs_data"; "exec"; "const_params.yml"]))
    /\ (forall p, at_or_under "exec" p = true ->
          p_fs pre !! p = if String.eqb p "exec" then Some Dir else None).
Proof.
  unfold batches_prologue. intros Hrun.
  apply bind_Ok in Hrun as (fs1 & Hclear & Hrun).
  apply bind_Ok in Hrun as (exp_name & Hexp & Hrun).
  apply bind_Ok in Hrun as (hdf5 & Hhdf5 & Hrun).
  apply bind_Ok in Hrun as (fs2 & Hpre & Hrun).
  apply bind_Ok in Hrun as (fs3 & Hexec & Hrun).
  apply bind_Ok in Hrun as (fs4 & Hwrite & Hrun).
  injection Hrun as <-. simpl.
  pose proof Hclear as Hclear'. unfold clear_batch_files in Hclear'.
  apply bind_Ok in Hclear' as (name & Hname & Hremove).
  exists name, fs1. split; [done|]. split; [done|]. split.
  - intros f Hf Hslash Hmatch.
    assert (Hin : f ∈ glob (py_str name +:+ "*") fs) by by apply glob_elem.
    destruct (remove_all_lookup _ _ _ f Hremove) as [Hgone _].
    specialize (Hgone Hin). split; [done|].
    rewrite (write_file_lookup _ _ _ _ f Hwrite).
    destruct (decide ("const_params.yml" = f)) as [<-|Hne1].
    { right. set_solver. }
    destruct (at_or_under "exec" f) eqn:Hex.
    { right. apply at_or_under_entry in Hex as ->; [set_solver|done]. }
    rewrite (clear_exec_frame _ _ f Hexec Hex).
    destruct (at_or_under "obs_data" f) eqn:Hobs.
    { right. apply at_or_under_entry in Hobs as ->; [set_solver|done]. }
    rewrite (preprocess_frame _ _ _ f Hpre Hobs). by left.
  - intros p Hp. rewrite (write_file_lookup _ _ _ _ p Hwrite).
    destruct (decide ("const_params.yml" = p)) as [<-|Hne]; [done|].
    by eapply clear_exec_fresh.
Qed.

End Clearing.

(** ** Identifiers *)

Lemma contains_cons (t : string) (c : ascii) (s : string) :
  contains t (String c s) = String.prefix t (String c s) || contains t s.
Proof. reflexivity. Qed.

Lemma contains_cons_false (t : string) (c : ascii) (s : string) :
  contains t (String c s) = false ->
  String.prefix t (String c s) = false /\ contains t s = false.
Proof. rewrite contains_cons. by intros [? ?]%orb_false_iff. Qed.

Lemma contains_dash_cons (c : ascii) (s : string) :
  contains "-" (String c s) = false -> c <> "-"%char /\ contains "-" s = false.
Proof.
  intros [Hp Hs]%contains_cons_false. split; [|done]. intros ->.
  by rewrite prefix_cons, prefix_nil, bool_decide_eq_true_2 in Hp.
Qed.

Lemma contains_dash_app (k : string) :
  contains "-" k = false -> contains "-" (k +:+ "_") = false.
Proof.
  induction k as [|c k IH]; [done|].
  intros [Hc Hk]%contains_dash_cons. rewrite append_cons.
  rewrite contains_cons, (IH Hk), prefix_cons, bool_decide_eq_false_2; done.
Qed.

(** A text without dash that is followed by anything is a prefix of
    whatever comes before the first dash on the other side. *)
Lemma dashless_prefix (w X b R : string) :
  contains "-" w = false ->
  w +:+ X = b +:+ String "-" R -> String.prefix w b = true.
Proof.
  revert b. induction w as [|c w IH]; intros b Hw Heq; [apply prefix_nil|].
  apply contains_dash_cons in Hw as [Hc Hw].
  destruct b as [|c' b]; rewrite !append_cons in Heq.
  - rewrite append_nil_l in Heq. by injection Heq as -> _.
  - injection Heq as <- Heq.
    rewrite prefix_cons, bool_decide_eq_true_2 by done. by apply IH.
Qed.

(** The separator [-name_] is found where it was put. *)
Lemma separator_split (w a b X Y : string) :
  contains "-" w = false ->
  contains (String "-" w) a = false ->
  contains (String "-" w) b = false ->
  a +:+ String "-" w +:+ X = b +:+ String "-" w +:+ Y ->
  a = b /\ X = Y.
Proof.
  intros Hw. revert b. induction a as [|c a IH]; intros b Ha Hb Heq.
  - destruct b as [|c' b].
    + rewrite !append_nil_l in Heq. split; [done|].
      by apply (inj (String.append (String "-" w))) in Heq.
    + exfalso. rewrite append_nil_l, !append_cons in Heq. injection Heq as <- Heq.
      apply dashless_prefix in Heq; [|done].
      apply contains_cons_false in Hb as [Hb _].
      by rewrite prefix_cons, bool_decide_eq_true_2, Heq in Hb.
  - destruct b as [|c' b].
    + exfalso. rewrite append_nil_l, !append_cons in Heq. injection Heq as -> Heq.
      symmetry in Heq. apply dashless_prefix in Heq; [|done].
      apply contains_cons_false in Ha as [Ha _].
      by rewrite prefix_cons, bool_decide_eq_true_2, Heq in Ha.
    + rewrite !append_cons in Heq. injection Heq as <- Heq.
      apply contains_cons_false in Ha as [_ Ha].
      apply contains_cons_false in Hb as [_ Hb].
      destruct (IH b Ha Hb Heq) as [-> ->]. done.
Qed.

Section Identifiers.

Context {float : Type} `{Interpreter float}.

Implicit Types (lp : dict (pyval float)).

Lemma unique_ID_cons kv kv' lp :
  unique_ID_of (kv :: kv' :: lp)
  = fst kv +:+ "_" +:+ py_str (snd kv) +:+ "-" +:+ unique_ID_of (kv' :: lp).
Proof.
  unfold unique_ID_of. simpl map.
  change (String.concat "-" (key_value kv :: key_value kv' :: map key_value lp))
    with (key_value kv +:+ "-" +:+ String.concat "-" (key_value kv' :: map key_value lp)).
  unfold key_value at 1. by rewrite !append_assoc.
Qed.

(** The identifier of a non-empty combination starts with its first name. *)
Lemma unique_ID_head kv lp :
  exists u, unique_ID_of (kv :: lp) = fst kv +:+ "_" +:+ u.
Proof.
  destruct lp as [|kv' lp].
  - exists (py_str (snd kv)). unfold unique_ID_of, key_value. done.
  - rewrite unique_ID_cons. by eexists.
Qed.

Lemma unique_ID_injective lp1 lp2 :
  dict_keys lp1 = dict_keys lp2 ->
  plain_names lp1 = true ->
  separable lp1 = true ->
  separable lp2 = true ->
  unique_ID_of lp1 = unique_ID_of lp2 ->
  printed_values lp1 = printed_values lp2.
Proof.
  revert lp2. induction lp1 as [|[k v] lp1 IH]; intros lp2 Hkeys Hnames Hs1 Hs2 Hid.
  - by destruct lp2.
  - destruct lp2 as [|[k2 v2] lp2]; [done|].
    simpl in Hkeys. injection Hkeys as <- Hkeys.
    simpl in Hnames. apply andb_true_iff in Hnames as [_ Hnames].
    destruct lp1 as [|[k' v'] lp1].
    + destruct lp2; [|done]. unfold unique_ID_of, key_value in Hid. simpl in Hid.
      apply (inj (String.append k)) in Hid. apply (inj (String.append "_")) in Hid.
      unfold printed_values. simpl. by rewrite Hid.
    + destruct lp2 as [|[k2' v2'] lp2]; [done|].
      pose proof Hkeys as Hkeys'. simpl in Hkeys'. injection Hkeys' as <- _.
      rewrite !unique_ID_cons in Hid. simpl fst in Hid. simpl snd in Hid.
      apply (inj (String.append k)) in Hid. apply (inj (String.append "_")) in Hid.
      destruct (unique_ID_head (k', v') lp1) as [u Hu].
      destruct (unique_ID_head (k', v2') lp2) as [u2 Hu2].
      rewrite Hu, Hu2 in Hid. simpl fst in Hid.
      simpl in Hs1, Hs2.
      apply andb_true_iff in Hs1 as [Hv Hs1]. apply andb_true_iff in Hs2 as [Hv2 Hs2].
      apply negb_true_iff in Hv, Hv2.
      assert (Hk' : contains "-" (k' +:+ "_") = false).
      { apply contains_dash_app. simpl in Hnames.
        apply andb_true_iff in Hnames as [Hk' _]. by apply negb_true_iff in Hk'. }
      change ("-" +:+ k' +:+ "_") with (String "-" (k' +:+ "_")) in Hv, Hv2.
      assert (E : forall z, "-" +:+ k' +:+ "_" +:+ z = String "-" (k' +:+ "_") +:+ z).
      { intros z.
        change (String "-" (k' +:+ "_") +:+ z) with (String "-" ((k' +:+ "_") +:+ z)).
        rewrite append_assoc. reflexivity. }
      rewrite !E in Hid.
      destruct (separator_split _ _ _ _ _ Hk' Hv Hv2 Hid) as [Hpr Hrest].
      assert (Hid' : unique_ID_of ((k', v') :: lp1) = unique_ID_of ((k', v2') :: lp2)).
      { rewrite Hu, Hu2. simpl fst. by rewrite Hrest. }
      specialize (IH ((k', v2') :: lp2) Hkeys Hnames Hs1 Hs2 Hid').
      unfold printed_values in *. simpl map in *. simpl snd in *.
      by rewrite Hpr, IH.
Qed.

(** C5, as the code has it. Two combinations over the same names have
    different identifiers as soon as the printed form of some value differs,
    provided no name contains a dash and no printed value contains the
    dash-name-underscore that starts the next pair. The identifier is
    computed from the combination alone: compact mode has no part in it. *)
Theorem unique_ID_distinct lp1 lp2 :
  dict_keys lp1 = dict_keys lp2 ->
  plain_names lp1 = true ->
  separable lp1 = true ->
  separable lp2 = true ->
  printed_values lp1 <> printed_values lp2 ->
  unique_ID_of lp1 <> unique_ID_of lp2.
Proof.
  intros Hkeys Hnames Hs1 Hs2 Hdiff Hid. apply Hdiff.
  by apply unique_ID_injective.
Qed.

End Identifiers.

(** ** The input document *)

Section Document.

Context {float : Type} `{Interpreter float}.

Lemma render_line_rendered (l : line_data) : render_line l = rendered l.
Proof. unfold render_line, input_line, rendered. by rewrite map_map. Qed.

(** C2, as the code has it. The document has twenty-four logical lines,
    in the order of section 4.4 and with the values that section names; each
    line is its values joined by spaces and left-justified in a field of at
    least thirty characters, then a space, the mark [!], a space, and the
    comments joined by [ ; ]; the lines are joined by newlines. *)
Theorem input_document_format exp_name layer pixel_size (P : chainmap) wavelength
    reflectance bandwidth lamps bearing input_data :
  create_illumina_in exp_name layer pixel_size P wavelength reflectance bandwidth
    lamps bearing = Ok input_data ->
  length input_data = 24%nat
  /\ Forall2
       (Forall2 (fun vc f =>
          resolve exp_name layer pixel_size P wavelength reflectance bandwidth
            lamps bearing f = Ok (fst vc)))
       input_data layout
  /\ render_input input_data = String.concat newline (map rendered input_data).
Proof.
  unfold create_illumina_in. intros Hrun. inv_binds Hrun. injection Hrun as <-.
  split; [reflexivity|]. split.
  - unfold layout. repeat constructor;
      cbn [resolve fst];
      first [ assumption
            | repeat match goal with
              | Hs : ?e = Ok _ |- context [?e] => rewrite Hs; cbn [bind]
              end; done ].
  - unfold render_input. by rewrite (map_ext _ _ render_line_rendered).
Qed.

End Document.

(** ** What [folder_setup] records *)

Section Manifest.

Context {float : Type} `{Interpreter float} `{Platform}.

(** In the namespace of the module a turn of the loop either skips the
    combination or stops at the first name it cannot find. *)
Lemma folder_setup_body_module_globals params multival brng compact dir_name
    exp_name st vals st' :
  folder_setup_body module_globals params multival brng compact dir_name exp_name
    st vals = Ok st' ->
  st' = st.
Proof.
  unfold folder_setup_body. intros Hrun. inv_bind Hrun.
  destruct x; [by injection Hrun as <-|].
  inv_binds Hrun.
  match goal with
  | Hs : load_global module_globals "refls" = Ok _ |- _ => discriminate Hs
  end.
Qed.

(** Whenever [folder_setup] returns, its three columns are empty and so is
    the manifest it has written. *)
Lemma folder_setup_records_nothing param_values params multival brng compact
    dir_name exp_name (fs : FS) st :
  folder_setup module_globals param_values params multival brng compact dir_name
    exp_name fs = Ok st ->
  exe_location st = [] /\ exe_input st = [] /\ exe_output st = []
  /\ st_fs st !! "execute_info.txt" = Some (File (Text "")).
Proof.
  unfold folder_setup. intros Hrun. inv_bind Hrun.
  apply (for_each_preserves eq) in Hx.
  - subst x. inv_bind Hrun. injection Hrun as <-. simpl.
    repeat split; try done.
    rewrite (write_file_lookup _ _ _ _ "execute_info.txt" Hx).
    by rewrite decide_True.
  - intros s v s' Hs. symmetry. by eapply folder_setup_body_module_globals.
Qed.

Lemma batches_manifest_empty (inp : inputs) compact batch_name (fs fs' : FS) :
  batches inp compact batch_name fs = Ok fs' ->
  fs' !! "execute_info.txt" = Some (File (Text "")).
Proof.
  unfold batches, batches_with. intros Hrun. do 4 inv_bind Hrun.
  injection Hrun as <-.
  apply folder_setup_records_nothing in Hx0 as (_ & _ & _ & Hm).
  rewrite (write_file_lookup _ _ _ _ "execute_info.txt" Hx2).
  rewrite decide_False by done.
  rewrite (write_file_lookup _ _ _ _ "execute_info.txt" Hx1).
  by rewrite decide_False.
Qed.

End Manifest.

(** ** The zenith rule *)

Lemma succeeds_Ok {A : Type} (r : result A) :
  succeeds r = true -> exists a, r = Ok a.
Proof. destruct r; [by eexists|done]. Qed.

Section ZenithRule.

Context {float : Type} `{Interpreter float} `{Platform}.

Implicit Types (params : dict (pyval float)) (st : setup_state).




End ZenithRule.

(** * The model on the sample configuration *)

Section SampleRuns.

Import Sample.

(** C1. On the sample configuration [batches] stops with a [NameError]
    at the first retained combination. Even with the four names bound, the
    run that then completes creates the sandbox and lists [<uniqueID>.in] in
    the manifest, but writes no file of that name: the only entry whose name
    ends in [.in] is the configuration itself. The function that would write
    the input file, [param_generate], is not called, and it reads a name
    that is not defined. *)
Theorem batches_writes_no_input_file :
  batches world false None folder = Raise (NameError "refls")
  /\ match batches_with bound_names world false None folder with
     | Ok fs' =>
         isdir fs' sandbox_dir = true
         /\ (exists text,
               fs' !! "execute_info.txt" = Some (File (Text text))
               /\ String.prefix
                    ("/work/" +:+ strip_sep sandbox_dir +:+ "," +:+ first_ID +:+ ".in,")
                    text = true)
         /\ fs' !! (sandbox_dir +:+ first_ID +:+ ".in") = None
         /\ List.filter (ends_with ".in") (map fst (map_to_list fs'))
            = ["inputs_params.in"]
     | Raise _ => False
     end
  /\ param_generate module_globals first_combination params wls refls spectral_bands
       ["LED"] (VStr "Hawaii") pixel_size folder
     = Raise (NameError "fold_name").
Proof.
  split; [vm_compute; reflexivity|]. split; [|vm_compute; reflexivity].
  vm_compute. split; [reflexivity|]. split; [|split; reflexivity].
  eexists. split; reflexivity.
Qed.

(** C6. Whatever the input, a run of [batches] that completes leaves an
    empty manifest: in the namespace of the module the loop of
    [folder_setup] cannot get past a retained combination, because it reads
    [refls], which is a local of [batches]. On the sample configuration the
    matrix has eight combinations, six of them retained, and the manifest
    should have six lines; the loop stops at the first of them, and the
    exception leaves [batches] before [execute_info.txt] is opened, in
    compact mode as well. *)
Theorem folder_setup_stops_before_manifest :
  (forall (float : Type) (F : Interpreter float) (Pl : Platform) (inp : inputs)
          (compact : bool) (batch_name : option string) (fs fs' : FS),
      batches inp compact batch_name fs = Ok fs' ->
      fs' !! "execute_info.txt" = Some (File (Text "")))
  /\ batches world false None folder = Raise (NameError "refls")
  /\ batches world true None folder = Raise (NameError "refls")
  /\ match batches_prologue world None folder with
     | Ok pre =>
         length (param_vals_of (p_params pre)) = 8%nat
         /\ folder_setup module_globals (param_vals_of (p_params pre)) (p_params pre)
              (multival_of (p_params pre)) (p_brng pre) false "exec/"
              (p_exp_name pre) (p_fs pre)
            = Raise (NameError "refls")
         /\ p_fs pre !! "execute_info.txt" = None
     | Raise _ => False
     end.
Proof.
  split; [intros; by eapply batches_manifest_empty|].
  split; [vm_compute; reflexivity|]. split; [vm_compute; reflexivity|].
  vm_compute. repeat split; reflexivity.
Qed.

(** C2, the claim as stated fails: the document of the first combination
    has twenty-four lines, not twenty. *)
Lemma input_document_has_24_lines :
  exists input_data,
    create_illumina_in (VStr "Hawaii") (VInt 0) pixel_size
      (ChainMap first_combination params) "400" (f 0 110000) (f 50 0) ["LED"] (VInt 0)
    = Ok input_data
    /\ length input_data = 24%nat
    /\ length input_data <> 20%nat
    /\ nth_error (map render_line input_data) 1
       = Some "Hawaii                         ! Root file name".
Proof.
  eexists. split; [vm_compute; reflexivity|].
  split; [reflexivity|]. split; [vm_compute; lia|vm_compute; reflexivity].
Qed.

(** The document of the first combination of the sample. *)
Lemma input_document_format_witness :
  exists input_data,
    create_illumina_in (VStr "Hawaii") (VInt 0) pixel_size
      (ChainMap first_combination params) "400" (f 0 110000) (f 50 0) ["LED"] (VInt 0)
    = Ok input_data
    /\ length input_data = 24%nat
    /\ Forall2
         (Forall2 (fun vc fd =>
            resolve (VStr "Hawaii") (VInt 0) pixel_size
              (ChainMap first_combination params) "400" (f 0 110000) (f 50 0)
              ["LED"] (VInt 0) fd = Ok (fst vc)))
         input_data layout
    /\ render_input input_data = String.concat newline (map rendered input_data).
Proof.
  destruct (create_illumina_in (VStr "Hawaii") (VInt 0) pixel_size
              (ChainMap first_combination params) "400" (f 0 110000) (f 50 0)
              ["LED"] (VInt 0)) as [input_data|e] eqn:Hrun.
  - exists input_data. split; [reflexivity|].
    exact (input_document_format _ _ _ _ _ _ _ _ _ _ Hrun).
  - vm_compute in Hrun. discriminate Hrun.
Defined.


(** C4, the claim as stated fails: with two elevations and three
    azimuths the code puts [elevation_angle] first, its name being the
    longer, where descending cardinality puts [azimuth_angle] first. *)
Lemma multival_not_by_cardinality :
  multival_of config_three_azimuths = ["elevation_angle"; "azimuth_angle"]
  /\ cardinality config_three_azimuths "elevation_angle" = 2%nat
  /\ cardinality config_three_azimuths "azimuth_angle" = 3%nat
  /\ multival_by_cardinality config_three_azimuths
     = ["azimuth_angle"; "elevation_angle"].
Proof. repeat split; reflexivity. Qed.

(** C5, the claim as stated fails: the number one and the text "1" are
    different values of the same list and print alike, so that two distinct
    combinations of the matrix get one identifier. *)
Lemma unique_ID_collision :
  param_vals_of config_mixed = [[VInt 1]; [VStr "1"]]
  /\ py_eq (VInt 1) (VStr "1" : pyval dec) = false
  /\ unique_ID_of (dict_of_pairs (zip (multival_of config_mixed) [VInt 1 : pyval dec]))
     = "cloud_model_1"
  /\ unique_ID_of (dict_of_pairs (zip (multival_of config_mixed) [VStr "1" : pyval dec]))
     = "cloud_model_1".
Proof. repeat split; reflexivity. Qed.

(** Two combinations that differ in the azimuth; the dash of the negative
    longitude is no separator. *)
Lemma unique_ID_distinct_witness :
  dict_keys combination_a = dict_keys combination_b
  /\ plain_names combination_a = true
  /\ separable combination_a = true
  /\ separable combination_b = true
  /\ printed_values combination_a <> printed_values combination_b
  /\ unique_ID_of combination_a <> unique_ID_of combination_b.
Proof.
  assert (Hdiff : printed_values combination_a <> printed_values combination_b).
  { vm_compute. discriminate. }
  repeat split; try reflexivity; [exact Hdiff|].
  exact (unique_ID_distinct combination_a combination_b eq_refl eq_refl eq_refl
           eq_refl Hdiff).
Defined.

(** C7, the claim as stated fails: the input folder holds no molecular
    absorption file, and the sandbox is built all the same, with a link to
    the missing file. *)
Lemma create_symlinks_links_missing_asset :
  folder !! "MolecularAbs.txt" = None
  /\ match create_symlinks sandbox_dir params (VStr "Hawaii") coords (VInt 0)
             ["LED"] "400" folder with
     | Ok fs' =>
         fs' !! (sandbox_dir +:+ "MolecularAbs.txt")
         = Some (Link "../../../../MolecularAbs.txt")
     | Raise _ => False
     end.
Proof. split; [reflexivity|]. vm_compute. reflexivity. Qed.

(** Removing the molecular absorption file changes nothing else in what
    the construction of the first sandbox does. *)
Lemma create_symlinks_ignores_assets_witness :
  concerns sandbox_dir "MolecularAbs.txt" = false
  /\ create_symlinks sandbox_dir params (VStr "Hawaii") coords (VInt 0) ["LED"] "400"
       (delete "MolecularAbs.txt" folder_with_asset)
     = lift (delete "MolecularAbs.txt")
         (create_symlinks sandbox_dir params (VStr "Hawaii") coords (VInt 0) ["LED"]
            "400" folder_with_asset).
Proof.
  split; [reflexivity|].
  exact (create_symlinks_ignores_assets sandbox_dir params (VStr "Hawaii") coords
           (VInt 0) ["LED"] "400" folder_with_asset "MolecularAbs.txt" eq_refl).
Defined.

(** The sandbox [exec/old] of the sample folder is left as it is. *)
Lemma create_symlinks_idempotent_witness :
  isdir folder "exec/old/" = true
  /\ create_symlinks "exec/old/" params (VStr "Hawaii") coords (VInt 0) ["LED"] "400"
       folder
     = Ok folder.
Proof.
  split; [reflexivity|].
  exact (proj1 (create_symlinks_idempotent "exec/old/" params (VStr "Hawaii") coords
                  (VInt 0) ["LED"] "400" folder) eq_refl).
Defined.

(** The batch file and the sandbox of the earlier run are gone when the
    matrix of the sample is about to be processed. *)
Lemma batches_starts_clean_witness :
  exists pre,
    batches_prologue world None folder = Ok pre
    /\ p_fs pre !! "batch_1" = None
    /\ p_fs pre !! "exec/old/execute" = None
    /\ p_fs pre !! "exec" = Some Dir.
Proof.
  destruct (batches_prologue world None folder) as [pre|e] eqn:Hrun.
  - exists pre. split; [reflexivity|].
    destruct (batches_starts_clean world None folder pre Hrun)
      as (name & fs1 & Hname & _ & Hfiles & Hexec).
    assert (name = VStr "batch") as ->.
    { vm_compute in Hname. by injection Hname as <-. }
    split; [|split].
    + destruct (Hfiles "batch_1") as [_ [Hgone|Hback]]; try reflexivity.
      * by eexists.
      * exact Hgone.
      * exfalso. revert Hback. rewrite !elem_of_cons, elem_of_nil.
        intros [?|[?|[?|[]]]]; discriminate.
    + exact (Hexec "exec/old/execute" eq_refl).
    + exact (Hexec "exec" eq_refl).
  - vm_compute in Hrun. discriminate Hrun.
Defined.

End SampleRuns.

(** * Further properties of the module *)

(** ** The cache of [MSDOpen] *)

Section CacheFacts.

Context {dataset : Type}.

Implicit Types (cached : gmap string dataset).

(** X1. A dataset that [MSDOpen] has returned is in the cache under its
    file name; the cache keeps all it held; and from then on the file is not
    opened again: whatever the opener would do, the same dataset comes back
    and the cache stays as it is. *)
Theorem MSDOpen_caches (MSD_Open : string -> result dataset) filename cached ds
    cached' :
  MSDOpen MSD_Open filename cached = Ok (ds, cached') ->
  cached' !! filename = Some ds
  /\ cached ⊆ cached'
  /\ (forall other, other <> filename -> cached' !! other = cached !! other)
  /\ (forall opener, MSDOpen opener filename cached' = Ok (ds, cached')).
Proof.
  unfold MSDOpen. destruct (cached !! filename) as [d|] eqn:Hc.
  - intros [= <- <-]. rewrite Hc. done.
  - intros Hrun. apply bind_Ok in Hrun as (d & Hopen & [= <- <-]).
    rewrite lookup_insert_eq. repeat split; try done.
    + by apply insert_subseteq.
    + intros other Hne. by rewrite lookup_insert_ne.
Qed.

End CacheFacts.

(** ** [param_generate] and [execute_wrapper] *)

Section Generate.

Context {float : Type} `{Interpreter float} `{Platform}.

(** X2. In the namespace of the module [execute_wrapper], that is
    [param_generate], never returns: whatever its arguments and the file
    system, it raises, and when the wavelength, the layer and the two tables
    are read without error the exception is the [NameError] of [fold_name]. *)
Theorem execute_wrapper_never_returns (args : task) (fs : FS) :
  (exists e, execute_wrapper module_globals args fs = Raise e)
  /\ (forall wl wavelength layer i reflectance row bandwidth,
        cm_get (ChainMap (t_local_params args) (t_params args)) "wavelength" = Ok wl ->
        py_fmt_g wl = Ok wavelength ->
        cm_get (ChainMap (t_local_params args) (t_params args)) "layer" = Ok layer ->
        list_index (t_wls args) wl = Ok i ->
        subscript (t_refls args) i = Ok reflectance ->
        subscript (t_spectral_bands args) i = Ok row ->
        subscript row 1 = Ok bandwidth ->
        execute_wrapper module_globals args fs = Raise (NameError "fold_name")).
Proof.
  unfold execute_wrapper, param_generate. cbv zeta. split.
  - repeat match goal with
    | |- exists e, bind (load_global module_globals _) _ = Raise e =>
        eexists; reflexivity
    | |- exists e, bind ?r _ = Raise e =>
        destruct r; cbn [bind]; [|by eexists]
    end.
  - intros wl wavelength layer i reflectance row bandwidth Hwl Hg Hlayer Hi Hr Hrow Hb.
    repeat (first [rewrite Hwl | rewrite Hg | rewrite Hlayer | rewrite Hi
                  | rewrite Hr | rewrite Hrow | rewrite Hb]; cbn [bind]).
    reflexivity.
Qed.

End Generate.

(** ** The layout of [input_line] *)

Lemma string_length_app (a b : string) :
  String.length (a +:+ b) = (String.length a + String.length b)%nat.
Proof.
  induction a as [|c a IH]; [reflexivity|].
  rewrite append_cons. simpl. by rewrite IH.
Qed.

Lemma spaces_S (n : nat) : spaces (S n) = String " " (spaces n).
Proof.
  unfold spaces. destruct n; reflexivity.
Qed.

Lemma spaces_length (n : nat) : String.length (spaces n) = n.
Proof.
  induction n as [|n IH]; [reflexivity|].
  rewrite spaces_S. simpl. by rewrite IH.
Qed.

Lemma string_get_app_r (a b : string) (i : nat) :
  String.get (String.length a + i) (a +:+ b) = String.get i b.
Proof.
  induction a as [|c a IH]; [reflexivity|].
  rewrite append_cons. simpl. exact IH.
Qed.

Lemma substring_app_r (a b : string) :
  substring (String.length a) (String.length b) (a +:+ b) = b.
Proof.
  induction a as [|c a IH].
  - rewrite append_nil_l. simpl. induction b as [|c b IHb]; [reflexivity|].
    simpl. by rewrite IHb.
  - rewrite append_cons. simpl. exact IH.
Qed.

Section Lines.

Context {float : Type} `{Interpreter float}.

(** X3. A line of the input document never truncates its values: the
    joined values open the line, blanks fill it up to the field width when
    the values are shorter, and the mark [!] stands one column after the
    wider of the two, followed by a blank and the joined comments, which end
    the line. *)
Theorem input_line_layout (val : list (pyval float)) (comment : list string)
    (n_space : nat) :
  let value_str := String.concat " " (map py_str val) in
  let comment_str := String.concat " ; " comment in
  let line := input_line val comment n_space in
  let col := Nat.max n_space (String.length value_str) in
  String.prefix value_str line = true
  /\ String.length line = (col + 3 + String.length comment_str)%nat
  /\ (forall i, (String.length value_str <= i < col)%nat ->
        String.get i line = Some " "%char)
  /\ String.get col line = Some " "%char
  /\ String.get (col + 1) line = Some "!"%char
  /\ String.get (col + 2) line = Some " "%char
  /\ substring (col + 3) (String.length comment_str) line = comment_str.
Proof.
  intros value_str comment_str line col.
  assert (Hline : line = value_str
                         +:+ spaces (n_space - String.length value_str)
                         +:+ " ! " +:+ comment_str).
  { unfold line, input_line, ljust. fold value_str comment_str.
    by rewrite append_assoc. }
  assert (Hcol : col = (String.length value_str
                        + (n_space - String.length value_str))%nat) by (unfold col; lia).
  set (pad := (n_space - String.length value_str)%nat) in *.
  assert (Hfield : String.length (value_str +:+ spaces pad) = col).
  { by rewrite string_length_app, spaces_length. }
  assert (Hsplit : line = (value_str +:+ spaces pad) +:+ " ! " +:+ comment_str).
  { by rewrite append_assoc. }
  split; [rewrite Hline; apply prefix_app|].
  split.
  { rewrite Hsplit, string_length_app, Hfield, string_length_app. simpl. lia. }
  split.
  { intros i [Hlo Hhi]. rewrite Hline.
    replace i with (String.length value_str + (i - String.length value_str))%nat by lia.
    rewrite string_get_app_r.
    assert (Hi : (i - String.length value_str < pad)%nat) by lia.
    clear -Hi. revert Hi. generalize (i - String.length value_str)%nat as j.
    induction pad as [|p IH]; intros j Hj; [lia|].
    rewrite spaces_S, append_cons. destruct j as [|j]; [reflexivity|].
    simpl. apply IH. lia. }
  rewrite Hsplit, <- Hfield.
  split; [rewrite <- (Nat.add_0_r (String.length _)) at 1; by rewrite string_get_app_r|].
  split; [by rewrite string_get_app_r|].
  split; [by rewrite string_get_app_r|].
  rewrite <- (append_assoc (value_str +:+ spaces pad) " ! " comment_str).
  replace (String.length (value_str +:+ spaces pad) + 3)%nat
    with (String.length ((value_str +:+ spaces pad) +:+ " ! "))
    by (rewrite (string_length_app _ " ! "); reflexivity).
  apply substring_app_r.
Qed.

End Lines.

(** ** What [create_illumina_in] accepts and what it writes *)

Lemma bind_ok_eq {A B : Type} (r : result A) (k : A -> result B) (a : A) :
  r = Ok a -> bind r k = k a.
Proof. by intros ->. Qed.

Section Fields.

Context {float : Type} `{Interpreter float}.

Implicit Types (P : @chainmap float) (v x : pyval float).

Lemma py_mul1_Ok x v :
  py_mul1 x = Ok v ->
  x <> VNone
  /\ (forall b, v <> VBool b)
  /\ (forall b, x = VBool b -> v = VInt (Z_of_bool b))
  /\ ((forall b, x <> VBool b) -> v = x).
Proof.
  destruct x; simpl; intros [= <-]; repeat split; congruence.
Qed.

Lemma py_mul1_defined x : x <> VNone -> exists v, py_mul1 x = Ok v.
Proof. destruct x; simpl; eauto. congruence. Qed.

Lemma flag_field P key x v :
  cm_get P key = Ok x ->
  py_mul1 x = Ok v ->
  (forall b, v <> VBool b)
  /\ (forall b, cm_get P key = Ok (VBool b) ->
        v = VInt (Z_of_bool b) /\ py_str v = if b then "1" else "0")
  /\ (forall y, cm_get P key = Ok y -> (forall b, y <> VBool b) -> v = y).
Proof.
  intros Hget Hmul. apply py_mul1_Ok in Hmul as (_ & Hnb & Hb & Hother).
  split; [exact Hnb|]. split.
  - intros b Hkey. rewrite Hget in Hkey. injection Hkey as ->.
    rewrite (Hb b eq_refl). split; [reflexivity|]. by destruct b.
  - intros y Hkey Hy. rewrite Hget in Hkey. injection Hkey as ->. by apply Hother.
Qed.

Lemma py_add_Ok x y v :
  py_add x y = Ok v ->
  is_Some (as_number x) /\ is_Some (as_number y) /\ is_Some (as_number v).
Proof.
  unfold py_add.
  destruct (as_number x) as [[a|a]|], (as_number y) as [[b|b]|];
    intros [= <-]; simpl; eauto.
Qed.

Lemma py_add_defined x y :
  is_Some (as_number x) -> is_Some (as_number y) ->
  exists v, py_add x y = Ok v /\ is_Some (as_number v).
Proof.
  unfold py_add. intros [[a|a] ->] [[b|b] ->]; eexists; split; eauto.
Qed.

Lemma py_mod_defined v m : is_Some (as_number v) -> exists w, py_mod v m = Ok w.
Proof. unfold py_mod. intros [[a|a] ->]; eauto. Qed.

(** X4. The three switches of the configuration are never written as
    [True] or [False]: the lines of the double scattering, of the single
    scattering and of the obstacles hold one value, which is not a [bool];
    a [bool] of the configuration is written as the integer [1] or [0], and
    any other value as it is. *)
Theorem flags_written_as_integers exp_name layer pixel_size P wavelength
    reflectance bandwidth lamps bearing input_data :
  create_illumina_in exp_name layer pixel_size P wavelength reflectance bandwidth
    lamps bearing = Ok input_data ->
  Forall2
    (fun (i : nat) key =>
       exists v comment,
         input_data !! i = Some [(v, comment)]
         /\ (forall b, v <> VBool b)
         /\ (forall b, cm_get P key = Ok (VBool b) ->
               v = VInt (Z_of_bool b) /\ py_str v = if b then "1" else "0")
         /\ (forall y, cm_get P key = Ok y -> (forall b, y <> VBool b) -> v = y))
    [5; 6; 15]%nat flag_keys.
Proof.
  intros Hrun. unfold create_illumina_in in Hrun. inv_binds Hrun.
  injection Hrun as <-.
  repeat constructor; eexists _, _; (split; [reflexivity|]);
    eapply flag_field; eassumption.
Qed.

(** X5. An integer azimuth is written shifted by an integer bearing
    and wrapped into the turn: the value of the line lies between 0 and 359
    and differs from the sum by a multiple of 360, so a negative sum wraps
    upwards. *)
Theorem azimuth_wrapped exp_name layer pixel_size P wavelength reflectance
    bandwidth lamps bearing input_data (a b : Z) :
  create_illumina_in exp_name layer pixel_size P wavelength reflectance bandwidth
    lamps bearing = Ok input_data ->
  cm_get P "azimuth_angle" = Ok (VInt a) ->
  bearing = VInt b ->
  exists elevation z turns,
    input_data !! 16%nat
    = Some [(elevation, "Elevation viewing angle");
            (VInt z, "Azimuthal viewing angle")]
    /\ cm_get P "elevation_angle" = Ok elevation
    /\ 0 <= z < 360
    /\ a + b = z + 360 * turns.
Proof.
  intros Hrun Ha ->. unfold create_illumina_in in Hrun. inv_binds Hrun.
  injection Hrun as <-.
  repeat match goal with
  | Hx : cm_get P "azimuth_angle" = Ok ?x |- _ =>
      lazymatch x with
      | VInt a => fail
      | _ => rewrite Ha in Hx; injection Hx as <-
      end
  end.
  repeat match goal with
  | Hx : py_add (VInt a) (VInt b) = Ok _ |- _ => injection Hx as <-
  | Hx : py_mod (VInt (a + b)) 360 = Ok _ |- _ => injection Hx as <-
  end.
  eexists _, ((a + b) mod 360), ((a + b) / 360).
  split; [reflexivity|]. split; [eassumption|].
  split; [apply Z.mod_pos_bound; lia|].
  pose proof (Z.div_mod (a + b) 360). lia.
Qed.

Lemma multipliable_defined x : multipliable x = true -> exists v, py_mul1 x = Ok v.
Proof. destruct x; simpl; eauto. discriminate. Qed.

(** X6. What [create_illumina_in] accepts, for an integer bearing such
    as the 0 that stands for a missing [brng.lst]. If the document is
    returned, the cell size was available, each of the nineteen keys is
    bound in [P], none of the three switches is [None] and the azimuth is a
    number. Conversely the document is returned when the cell size is
    available, the nineteen keys are bound, each switch is a boolean, a
    number, a text, a list or a tuple, and the azimuth is a number. A key
    that is missing, a switch left empty or an azimuth that is not a number
    raise instead: no partial document is returned. *)
Theorem create_illumina_in_succeeds exp_name layer pixel_size P wavelength
    reflectance bandwidth lamps (b : Z) :
  ((exists input_data,
       create_illumina_in exp_name layer pixel_size P wavelength reflectance
         bandwidth lamps (VInt b) = Ok input_data) ->
   (exists size, pixel_size layer = Ok size)
   /\ Forall (fun key => exists v, cm_get P key = Ok v) required_keys
   /\ Forall (fun key => cm_get P key <> Ok VNone) flag_keys
   /\ (exists azimuth,
         cm_get P "azimuth_angle" = Ok azimuth /\ is_Some (as_number azimuth)))
  /\ ((exists size, pixel_size layer = Ok size)
      /\ Forall (fun key => exists v, cm_get P key = Ok v) required_keys
      /\ Forall (fun key => exists v, cm_get P key = Ok v /\ multipliable v = true)
           flag_keys
      /\ (exists azimuth,
            cm_get P "azimuth_angle" = Ok azimuth /\ is_Some (as_number azimuth)) ->
      exists input_data,
        create_illumina_in exp_name layer pixel_size P wavelength reflectance
          bandwidth lamps (VInt b) = Ok input_data).
Proof.
  assert (Hnb : is_Some (as_number (VInt b : pyval float))) by (by eexists).
  split.
  - intros [input_data Hrun]. unfold create_illumina_in in Hrun. inv_binds Hrun.
    split; [eauto|]. split; [repeat constructor; eauto|].
    split.
    + repeat constructor; intros Hnone;
        match goal with
        | Hm : py_mul1 ?x = Ok _, Hg : cm_get P ?k = Ok ?x |- _ =>
            match type of Hnone with
            | cm_get P k = _ =>
                rewrite Hg in Hnone; injection Hnone as ->; discriminate Hm
            end
        end.
    + match goal with
      | Hadd : py_add ?x (VInt b) = Ok _ |- _ =>
          exists x; apply py_add_Ok in Hadd as (? & ? & ?); eauto
      end.
  - intros ((size & Hsize) & Hkeys & Hflags & (azimuth & Haz & Hna)).
    unfold required_keys in Hkeys. unfold flag_keys in Hflags.
    repeat match goal with
    | Hl : Forall _ (_ :: _) |- _ => apply Forall_cons in Hl as [? Hl]
    end.
    repeat match goal with
    | Hk : exists v, cm_get P _ = Ok v /\ multipliable v = true |- _ =>
        let Hm := fresh "Hm" in
        destruct Hk as (? & Hk & Hm); apply multipliable_defined in Hm as [? Hm]
    end.
    repeat match goal with
    | Hk : exists v, cm_get P _ = Ok v |- _ => destruct Hk as [? Hk]
    end.
    repeat match goal with
    | Hk : cm_get P ?k = Ok ?x, Hk' : cm_get P ?k = Ok ?y |- _ =>
        lazymatch x with
        | y => fail
        | _ => rewrite Hk in Hk'; injection Hk' as <-
        end
    end.
    match goal with
    | Hk : cm_get P "azimuth_angle" = Ok ?az, Hn : is_Some (as_number ?az) |- _ =>
        destruct (py_add_defined az (VInt b) Hn Hnb) as (shifted & Hadd & Hns)
    end.
    destruct (py_mod_defined shifted 360 Hns) as (wrapped & Hmod).
    unfold create_illumina_in.
    repeat (erewrite bind_ok_eq by eassumption).
    eexists. reflexivity.
Qed.

End Fields.

(** ** What [create_symlinks] leaves in the file system *)

Ltac chain_up := repeat first [reflexivity | eassumption | etrans; [eassumption|]].

Section Links.

Context {float : Type} `{Interpreter float} `{Platform}.

Implicit Types (fs : FS).

Lemma symlink_Ok src dst fs fs' :
  symlink src dst fs = Ok fs' -> fs !! dst = None /\ fs' = <[dst := Link src]> fs.
Proof.
  unfold symlink. destruct (fs !! dst) eqn:E; [done|].
  destruct (parent_ok fs dst); [|done]. by intros [= <-].
Qed.

Lemma symlink_link src dst fs fs' :
  symlink src dst fs = Ok fs' -> fs ⊆ fs' /\ fs' !! dst = Some (Link src).
Proof.
  intros Hrun. apply symlink_Ok in Hrun as [Hnone ->].
  split; [by apply insert_subseteq|apply lookup_insert_eq].
Qed.

Lemma for_each_links {A : Type} (body : FS -> A -> result FS)
    (dst src : A -> string) (l : list A) fs fs' :
  (forall s x s', body s x = Ok s' -> s ⊆ s' /\ s' !! dst x = Some (Link (src x))) ->
  for_each body l fs = Ok fs' ->
  fs ⊆ fs' /\ forall x, x ∈ l -> fs' !! dst x = Some (Link (src x)).
Proof.
  intros Hbody. revert fs. induction l as [|a l IH]; intros fs Hrun.
  - injection Hrun as <-. split; [done|]. intros x Hx. by apply elem_of_nil in Hx.
  - simpl in Hrun. inv_bind Hrun. apply Hbody in Hx as [Hsub Ha].
    apply IH in Hrun as [Hsub' Hl]. split; [by etrans|].
    intros y [->|Hy]%elem_of_cons; [|by apply Hl].
    eapply lookup_weaken; eassumption.
Qed.

Lemma enumerate1_lookup {A : Type} (l : list A) (i : nat) (x : A) :
  l !! i = Some x -> (S i, x) ∈ enumerate1 l.
Proof.
  intros Hi. apply list_elem_of_lookup. exists i. unfold enumerate1.
  rewrite lookup_zip_with, Hi, lookup_seq_lt by (by eapply lookup_lt_Some).
  reflexivity.
Qed.

#[local] Instance only_adds_preorder (Q : string -> node -> Prop) :
  PreOrder (only_adds Q).
Proof.
  split.
  - intros fs. split; [done|]. intros p n Hp Hn. congruence.
  - intros fs1 fs2 fs3 [Hsub Hnew] [Hsub' Hnew']. split; [by etrans|].
    intros p n Hp Hn. destruct (fs2 !! p) as [n'|] eqn:Hmid.
    + pose proof (lookup_weaken _ _ _ _ Hmid Hsub') as Hp'.
      rewrite Hp in Hp'. injection Hp' as ->. by apply Hnew.
    + by apply Hnew'.
Qed.




(** X7. When [create_symlinks] builds a sandbox, the experiment name is
    a text, the configuration names the aerosol profile and the layer type,
    the path of the sandbox was free and is now a directory, and every link
    of the sandbox is there with its target: the two cross-section tables,
    the molecular absorption, the executable, the topography and the origin
    of the observer, the four obstacle rasters, and for the lamp of rank [i]
    its emission function and its luminosity, numbered from one. *)
Theorem sandbox_links_present fold_name params exp_name coords layer lamps
    wavelength fs fs' :
  isdir fs fold_name = false ->
  create_symlinks fold_name params exp_name coords layer lamps wavelength fs = Ok fs' ->
  exists exp aerosol_profile layer_type,
    exp_name = VStr exp
    /\ dict_get "aerosol_profile" params = Ok aerosol_profile
    /\ dict_get "layer_type" params = Ok layer_type
    /\ fs !! strip_sep fold_name = None
    /\ fs' !! strip_sep fold_name = Some Dir
    /\ let obs_fold := path_join (path_join "obs_data" coords) (py_str layer) in
       let link name target :=
         fs' !! (fold_name +:+ name) = Some (Link (relpath target fold_name)) in
       link "aerosol.txt" (py_str aerosol_profile +:+ "_" +:+ wavelength +:+ ".txt")
       /\ link "layer.txt" (py_str layer_type +:+ "_" +:+ wavelength +:+ ".txt")
       /\ link "MolecularAbs.txt" "MolecularAbs.txt"
       /\ fs' !! (fold_name +:+ "illumina")
          = Some (Link (abspath (illumpath +:+ "/bin/illumina")))
       /\ link (exp +:+ "_topogra.bin") (path_join obs_fold "srtm.bin")
       /\ link "origin.bin" (path_join obs_fold "origin.bin")
       /\ (forall name, name ∈ ["obstd"; "obsth"; "obstf"; "altlp"] ->
             link (exp +:+ "_" +:+ name +:+ ".bin")
                  (path_join obs_fold (exp +:+ "_" +:+ name +:+ ".bin")))
       /\ (forall i lamp, lamps !! i = Some lamp ->
             link (exp +:+ "_fctem_" +:+ fmt_03d (S i) +:+ ".dat")
                  ("fctem_wl_" +:+ wavelength +:+ "_lamp_" +:+ lamp +:+ ".dat")
             /\ link (exp +:+ "_lumlp_" +:+ fmt_03d (S i) +:+ ".bin")
                     (path_join obs_fold
                        (exp +:+ "_" +:+ wavelength +:+ "_lumlp_" +:+ lamp +:+ ".bin"))).
Proof.
  intros Hdir Hrun. unfold create_symlinks in Hrun. rewrite Hdir in Hrun.
  cbv zeta in Hrun. inv_binds Hrun.
  match goal with
  | Hexp : as_str exp_name = Ok ?e |- _ =>
      destruct exp_name as [| | | |exp| |]; try discriminate Hexp;
      injection Hexp as <-
  end.
  match goal with
  | Hmk : makedirs fold_name fs = Ok _ |- _ =>
      pose proof Hmk as Hfree; unfold makedirs in Hfree;
      destruct (fs !! strip_sep fold_name) eqn:Hnone; [discriminate Hfree|];
      clear Hfree; apply makedirs_extends in Hmk as [_ Hmk]
  end.
  match goal with
  | Hloop : for_each _ (enumerate1 lamps) _ = Ok fs' |- _ =>
      apply (for_each_links _
               (fun il => fold_name +:+ exp +:+ "_lumlp_" +:+ fmt_03d (fst il) +:+ ".bin")
               (fun il => relpath
                  (path_join (path_join (path_join "obs_data" coords) (py_str layer))
                     (exp +:+ "_" +:+ wavelength +:+ "_lumlp_" +:+ snd il +:+ ".bin"))
                  fold_name)) in Hloop as [Hsub_lumlp Hlumlp];
      [|intros ? ? ? Hb; cbv beta in Hb;
        try (apply bind_Ok in Hb as (? & [= <-] & Hb));
        exact (symlink_link _ _ _ _ Hb)]
  end.
  match goal with
  | Hloop : for_each _ (enumerate1 lamps) _ = Ok _ |- _ =>
      apply (for_each_links _
               (fun il => fold_name +:+ exp +:+ "_fctem_" +:+ fmt_03d (fst il) +:+ ".dat")
               (fun il => relpath
                  ("fctem_wl_" +:+ wavelength +:+ "_lamp_" +:+ snd il +:+ ".dat")
                  fold_name)) in Hloop as [Hsub_fctem Hfctem];
      [|intros ? ? ? Hb; cbv beta in Hb;
        try (apply bind_Ok in Hb as (? & [= <-] & Hb));
        exact (symlink_link _ _ _ _ Hb)]
  end.
  match goal with
  | Hloop : for_each _ [_; _; _; _] _ = Ok _ |- _ =>
      apply (for_each_links _
               (fun name => fold_name +:+ exp +:+ "_" +:+ name +:+ ".bin")
               (fun name => relpath
                  (path_join (path_join (path_join "obs_data" coords) (py_str layer))
                     (exp +:+ "_" +:+ name +:+ ".bin"))
                  fold_name)) in Hloop as [Hsub_obst Hobst];
      [|intros ? ? ? Hb; cbv beta in Hb;
        try (apply bind_Ok in Hb as (? & [= <-] & Hb));
        exact (symlink_link _ _ _ _ Hb)]
  end.
  repeat match goal with
  | Hl : symlink _ _ _ = Ok _ |- _ => apply symlink_link in Hl as [? ?]
  end.
  assert (Hup : forall s0 p n, s0 !! p = Some n -> s0 ⊆ fs' -> fs' !! p = Some n)
    by (intros s0 p n Hp Hs; exact (lookup_weaken _ _ _ _ Hp Hs)).
  exists exp. eexists _, _.
  split; [reflexivity|]. split; [eassumption|]. split; [eassumption|].
  split; [reflexivity|].
  split; [eapply Hup; [eassumption|]; chain_up|].
  cbv zeta.
  repeat (split; [eapply Hup; [eassumption|]; chain_up|]).
  split.
  - intros name Hname. eapply Hup; [apply Hobst; exact Hname|]. chain_up.
  - intros i lamp Hlamp. apply enumerate1_lookup in Hlamp. split.
    + eapply Hup; [apply (Hfctem _ Hlamp)|]. chain_up.
    + apply (Hlumlp _ Hlamp).
Qed.


(** X9. A regular file that stands where the sandbox should be is never
    replaced: for a sandbox named by a canonical path, [os.path.isdir] is
    false of the file and [os.makedirs] raises [FileExistsError] on the path
    of the sandbox, before any link is made. *)
Theorem create_symlinks_never_overwrites fold_name params exp_name coords layer
    lamps wavelength fs (c : content) :
  canonical fold_name = true ->
  fs !! strip_sep fold_name = Some (File c) ->
  create_symlinks fold_name params exp_name coords layer lamps wavelength fs
  = Raise (FileExistsError fold_name).
Proof.
  intros _ Hfile. unfold create_symlinks, isdir, makedirs. by rewrite Hfile.
Qed.

End Links.

(** ** The completed configuration and its matrix *)

Section DictOrder.

Context {V : Type}.

Implicit Types (d : dict V) (k : string) (v : V).

Lemma dict_lookup_keys k v d : dict_lookup k d = Some v -> k ∈ dict_keys d.
Proof.
  induction d as [|[k' v'] d IH]; [done|]. simpl.
  destruct (String.eqb k' k) eqn:E.
  - apply String.eqb_eq in E as ->. intros _. by left.
  - intros Hd. right. by apply IH.
Qed.

Lemma dict_set_fresh k v d : k ∉ dict_keys d -> dict_set k v d = (d ++ [(k, v)])%list.
Proof.
  induction d as [|[k' v'] d IH]; [done|]. simpl. intros Hk.
  apply not_elem_of_cons in Hk as [Hne Hk].
  destruct (String.eqb k' k) eqn:E; [apply String.eqb_eq in E; congruence|].
  by rewrite IH.
Qed.

Lemma fold_set_fresh (l : list (string * V)) d :
  NoDup (dict_keys (d ++ l)%list) ->
  fold_left (fun d kv => dict_set (fst kv) (snd kv) d) l d = (d ++ l)%list.
Proof.
  revert d. induction l as [|[k v] l IH]; intros d Hnd; simpl.
  - by rewrite app_nil_r.
  - unfold dict_keys in Hnd. rewrite map_app in Hnd. simpl in Hnd.
    apply NoDup_app in Hnd as (Hd & Hdisj & Hl).
    rewrite dict_set_fresh by (intros Hin; apply (Hdisj _ Hin); by left).
    rewrite IH; [by rewrite <- app_assoc|].
    unfold dict_keys. rewrite !map_app. simpl. rewrite <- app_assoc. simpl.
    apply NoDup_app. split; [exact Hd|]. split; [exact Hdisj|exact Hl].
Qed.

(** [OrderedDict(pairs)] keeps the pairs as they are when no key comes
    twice. *)
Lemma dict_of_pairs_NoDup (l : list (string * V)) :
  NoDup (map fst l) -> dict_of_pairs l = l.
Proof. intros Hnd. exact (fold_set_fresh l [] Hnd). Qed.

End DictOrder.

Lemma product_empty_factor {A : Type} (ls : list (list A)) :
  [] ∈ ls -> product ls = [].
Proof.
  induction ls as [|l ls IH]; intros Hin; [by apply elem_of_nil in Hin|].
  apply elem_of_cons in Hin as [<-|Hin]; [reflexivity|].
  simpl. rewrite (IH Hin). clear. induction l as [|x l IHl]; [reflexivity|].
  exact IHl.
Qed.

Section Completed.

Context {float : Type} `{Interpreter float} `{Platform}.

Implicit Types (params : dict (pyval float)).

Lemma varying_elem params k : k ∈ varying params <-> list_valued params k = true.
Proof.
  unfold varying. rewrite list_elem_of_filter. split; [by intros [? _]|].
  intros Hl. split; [done|]. unfold list_valued in Hl.
  destruct (dict_lookup k params) eqn:E; [|done]. by eapply dict_lookup_keys.
Qed.

Lemma multival_elem params k :
  k ∈ multival_of params <-> list_valued params k = true.
Proof. by rewrite (multival_perm params), varying_elem. Qed.

Lemma multival_NoDup params : NoDup (dict_keys params) -> NoDup (multival_of params).
Proof.
  intros Hnd. rewrite (multival_perm params). unfold varying.
  by apply NoDup_filter.
Qed.

Lemma unwrap_single_lookup_ne pname k params :
  pname <> k -> dict_lookup k (unwrap_single pname params) = dict_lookup k params.
Proof.
  intros Hne. unfold unwrap_single.
  destruct (dict_lookup pname params) as [[| | | | |[|x [|]]|]|]; try done.
  by apply dict_lookup_set_ne.
Qed.

Lemma unwrap_single_lookup_eq pname params :
  dict_lookup pname (unwrap_single pname params)
  = match dict_lookup pname params with
    | Some (VList [x]) => Some x
    | other => other
    end.
Proof.
  unfold unwrap_single.
  destruct (dict_lookup pname params) as [[| | | | |[|x [|]]|]|] eqn:E;
    try done.
  apply dict_lookup_set_eq.
Qed.

(** X10. A parameter whose list is empty empties the whole matrix: there
    is no combination at all. [folder_setup] then builds no sandbox and,
    when [execute_info.txt] is absent or a regular file, returns three empty
    columns and a file system that differs from the one it was given by the
    empty manifest only. *)
Theorem empty_parameter_empties_matrix params k :
  dict_lookup k params = Some (VList []) ->
  param_vals_of params = []
  /\ forall G brng compact dir_name exp_name (fs : FS),
       (fs !! "execute_info.txt" = None
        \/ exists c, fs !! "execute_info.txt" = Some (File c)) ->
       folder_setup G (param_vals_of params) params (multival_of params) brng
         compact dir_name exp_name fs
       = Ok (SetupState (<["execute_info.txt" := File (Text "")]> fs) [] [] []).
Proof.
  intros Hk.
  assert (Hempty : param_vals_of params = []).
  { unfold param_vals_of. apply product_empty_factor. unfold param_space_of.
    apply list_elem_of_In, in_map_iff. exists k. split.
    - unfold values_of. by rewrite Hk.
    - apply list_elem_of_In, multival_elem. unfold list_valued. by rewrite Hk. }
  split; [exact Hempty|]. intros G brng compact dir_name exp_name fs Hfile.
  rewrite Hempty. unfold folder_setup. cbn [for_each bind st_fs].
  unfold write_file. change (parent_ok fs "execute_info.txt") with true.
  by destruct Hfile as [->|[c ->]].
Qed.

(** X11. In the configuration as [batches] completes it the wavelengths
    are those of [wav.lst], whatever the configuration said, and always
    vary; the layer varies unless the dataset has exactly one layer, which
    then is the number 0; the observer varies unless there is exactly one,
    which then is its pair of coordinates; every other key is as the
    configuration has it. *)
Theorem completed_configuration (inp : inputs) params :
  let params' := extend_params inp params in
  dict_lookup "wavelength" params'
  = Some (VList (map (fun r => VFloat (fst r)) (wav_lst inp)))
  /\ "wavelength" ∈ multival_of params'
  /\ ("layer" ∈ multival_of params' <-> ds_len inp <> 1%nat)
  /\ ("observer_coordinates" ∈ multival_of params'
      <-> length (ds_obs_pos inp) <> 1%nat)
  /\ (ds_len inp = 1%nat -> dict_lookup "layer" params' = Some (VInt 0))
  /\ (forall pos, ds_obs_pos inp = [pos] ->
        dict_lookup "observer_coordinates" params'
        = Some (VTuple [VFloat (fst pos); VFloat (snd pos)]))
  /\ (forall k, k ∉ ["wavelength"; "layer"; "observer_coordinates"] ->
        dict_lookup k params' = dict_lookup k params).
Proof.
  intros params'.
  assert (Hwl : dict_lookup "wavelength" params'
                = Some (VList (map (fun r => VFloat (fst r)) (wav_lst inp)))).
  { unfold params', extend_params. cbv zeta.
    rewrite !unwrap_single_lookup_ne, !dict_lookup_set_ne by done.
    apply dict_lookup_set_eq. }
  assert (Hlayer : dict_lookup "layer" params'
                   = match map (fun i => VInt (Z.of_nat i)) (seq 0 (ds_len inp)) with
                     | [x] => Some x
                     | l => Some (VList l)
                     end).
  { unfold params', extend_params. cbv zeta.
    rewrite unwrap_single_lookup_ne, unwrap_single_lookup_eq by done.
    rewrite dict_lookup_set_ne, dict_lookup_set_eq by done.
    by destruct (map _ (seq 0 (ds_len inp))) as [|? [|]]. }
  assert (Hobs : dict_lookup "observer_coordinates" params'
                 = match map (fun pos => VTuple [VFloat (fst pos); VFloat (snd pos)])
                             (ds_obs_pos inp) with
                   | [x] => Some x
                   | l => Some (VList l)
                   end).
  { unfold params', extend_params. cbv zeta.
    rewrite unwrap_single_lookup_eq, unwrap_single_lookup_ne by done.
    rewrite dict_lookup_set_eq.
    by destruct (map _ (ds_obs_pos inp)) as [|? [|]]. }
  split; [exact Hwl|]. rewrite !multival_elem. unfold list_valued.
  rewrite Hwl, Hlayer, Hobs. split; [reflexivity|].
  split.
  { destruct (ds_len inp) as [|[|n]]; simpl; split; (done || lia). }
  split.
  { destruct (ds_obs_pos inp) as [|pos [|pos' l]]; simpl; split; (done || lia). }
  split; [by intros ->|]. split; [by intros pos ->|].
  intros k Hk. unfold params', extend_params. cbv zeta.
  rewrite !not_elem_of_cons in Hk. destruct Hk as (? & ? & ? & _).
  by rewrite !unwrap_single_lookup_ne, !dict_lookup_set_ne.
Qed.

(** X12. The dictionary of a combination is the list of its pairs: for a
    configuration without a repeated key, [local_params] binds the varying
    names and nothing else, in the order of [multival], each to one of the
    values the configuration lists for it; [OrderedDict] neither drops nor
    reorders a pair. *)
Theorem local_params_bind_multival params vals :
  NoDup (dict_keys params) ->
  vals ∈ param_vals_of params ->
  let local_params := dict_of_pairs (zip (multival_of params) vals) in
  local_params = zip (multival_of params) vals
  /\ dict_keys local_params = multival_of params
  /\ map snd local_params = vals
  /\ (forall k v, dict_lookup k local_params = Some v -> v ∈ values_of params k).
Proof.
  intros Hnd Hvals local_params.
  pose proof (param_vals_positions _ _ Hvals) as Hpos.
  pose proof (Forall2_length _ _ _ Hpos) as Hlen.
  assert (Hfst : map fst (zip (multival_of params) vals) = multival_of params).
  { apply (fst_zip (multival_of params) vals). lia. }
  assert (Hsnd : map snd (zip (multival_of params) vals) = vals).
  { apply (snd_zip (multival_of params) vals). lia. }
  assert (Heq : local_params = zip (multival_of params) vals).
  { apply dict_of_pairs_NoDup. rewrite Hfst. by apply multival_NoDup. }
  split; [exact Heq|]. rewrite Heq. split; [exact Hfst|]. split; [exact Hsnd|].
  clear -Hpos. induction Hpos as [|v k vals ks Hv Hrest IH]; intros k0 v0; [done|].
  simpl. destruct (String.eqb k k0) eqn:E.
  - apply String.eqb_eq in E as ->. by intros [= <-].
  - apply IH.
Qed.

End Completed.

(** ** What [batches] does before the matrix: batch files and observers *)

Lemma for_each_invariant {A S : Type} (I : S -> Prop) (body : S -> A -> result S)
    (l : list A) (st st' : S) :
  (forall s x s', I s -> body s x = Ok s' -> I s') ->
  I st -> for_each body l st = Ok st' -> I st'.
Proof.
  intros Hbody. revert st. induction l as [|a l IH]; intros st Hst Hrun.
  - by injection Hrun as <-.
  - simpl in Hrun. inv_bind Hrun. eapply IH; [|exact Hrun]. by eapply Hbody.
Qed.

Section Prologue.

Context {float : Type} `{Interpreter float} `{Platform}.

Implicit Types (fs : FS).

Lemma glob_NoDup pattern fs : NoDup (glob pattern fs).
Proof.
  unfold glob. apply NoDup_filter. exact (NoDup_fst_map_to_list fs).
Qed.

Lemma remove_all_outcome (l : list string) fs :
  NoDup l ->
  (forall f, f ∈ l -> is_Some (fs !! f)) ->
  match for_each (fun fs fname => remove fname fs) l fs with
  | Ok _ => forall f, f ∈ l -> fs !! f <> Some Dir
  | Raise e => exists d, e = IsADirectoryError d /\ d ∈ l /\ fs !! d = Some Dir
  end.
Proof.
  revert fs. induction l as [|x l IH]; intros fs Hnd Hall.
  - simpl. intros f Hf. by apply elem_of_nil in Hf.
  - apply NoDup_cons in Hnd as [Hx Hnd]. simpl. unfold remove at 1.
    destruct (Hall x) as [n Hn]; [by left|]. rewrite Hn.
    assert (Hrest : forall f, f ∈ l -> is_Some (delete x fs !! f)).
    { intros f Hf. rewrite lookup_delete_ne by (intros ->; done).
      apply Hall. by right. }
    assert (Hstep :
      n <> Dir ->
      match for_each (fun fs fname => remove fname fs) l (delete x fs) with
      | Ok _ => forall f, f ∈ x :: l -> fs !! f <> Some Dir
      | Raise e =>
          exists d, e = IsADirectoryError d /\ d ∈ x :: l /\ fs !! d = Some Dir
      end).
    { intros Hfile. specialize (IH (delete x fs) Hnd Hrest).
      destruct (for_each _ l (delete x fs)) as [fs'|e].
      - intros f [->|Hf]%elem_of_cons; [congruence|].
        specialize (IH f Hf). rewrite lookup_delete_ne in IH by (intros ->; done).
        exact IH.
      - destruct IH as (d & -> & Hd & Hdir). exists d.
        split; [done|]. split; [by right|].
        rewrite lookup_delete_ne in Hdir by (intros ->; done). exact Hdir. }
    destruct n as [c| |t]; cbn [bind].
    + by apply Hstep.
    + exists x. split; [done|]. split; [by left|done].
    + by apply Hstep.
Qed.

(** X13. For a batch name without a separator, the clean-up of the batch
    files either removes every entry of the working directory that matches
    [<batch_file_name>*], files and links alike, and touches nothing else,
    or, when one of the matching entries is a directory, stops with
    [IsADirectoryError] on such a directory: a batch name that is a prefix
    of a directory name makes [batches] fail. No other error is possible. *)
Theorem clear_batch_files_outcome params fs name :
  dict_get "batch_file_name" params = Ok name ->
  contains "/" (py_str name) = false ->
  let matches f :=
    negb (contains "/" f) && glob_match (py_str name +:+ "*") f in
  match clear_batch_files params fs with
  | Ok fs' =>
      (forall f, fs' !! f = if matches f then None else fs !! f)
      /\ (forall f, matches f = true -> fs !! f <> Some Dir)
  | Raise e =>
      exists d, e = IsADirectoryError d /\ matches d = true /\ fs !! d = Some Dir
  end.
Proof.
  intros Hname _ matches. unfold clear_batch_files. rewrite Hname. cbn [bind].
  set (pattern := py_str name +:+ "*").
  assert (Hglob : forall f, f ∈ glob pattern fs <-> is_Some (fs !! f) /\ matches f = true).
  { intros f. rewrite glob_elem. unfold matches. fold pattern.
    rewrite andb_true_iff, negb_true_iff. tauto. }
  pose proof (remove_all_outcome (glob pattern fs) fs (glob_NoDup _ _)
                (fun f Hf => proj1 (proj1 (Hglob f) Hf))) as Hout.
  destruct (for_each _ (glob pattern fs) fs) as [fs'|e] eqn:Hrun.
  - split.
    + intros f. destruct (remove_all_lookup _ _ _ f Hrun) as [Hin Hnot].
      destruct (matches f) eqn:Hm.
      * destruct (fs !! f) as [n|] eqn:Hf.
        -- apply Hin, Hglob. by rewrite Hf.
        -- apply Hnot. rewrite Hglob, Hf. by intros [[? [=]] _].
      * apply Hnot. rewrite Hglob. intros [_ ?]. congruence.
    + intros f Hm Hdir. apply (Hout f); [|done]. apply Hglob. by rewrite Hdir.
  - destruct Hout as (d & -> & Hd & Hdir). exists d.
    split; [done|]. split; [by apply Hglob in Hd as [_ ?]|done].
Qed.

Lemma makedirs_free q fs fs' : makedirs q fs = Ok fs' -> fs !! strip_sep q = None.
Proof.
  unfold makedirs. by destruct (fs !! strip_sep q).
Qed.

Lemma obs_dir_path (pos : float * float) (rest : string) :
  "obs_data/" +:+ fmt_6f (fst pos) +:+ "_" +:+ fmt_6f (snd pos) +:+ rest
  = obs_dir pos +:+ rest.
Proof. unfold obs_dir. by rewrite !append_assoc. Qed.

Lemma observers_distinct (n : nat) (l : list (float * float)) fs fs' :
  for_each (fun fs pos =>
      for_each (fun fs i =>
          makedirs ("obs_data/" +:+ fmt_6f (fst pos) +:+ "_"
                    +:+ fmt_6f (snd pos) +:+ "/" +:+ pretty i) fs)
        (seq 0 (S n)) fs) l fs = Ok fs' ->
  fs ⊆ fs'
  /\ NoDup (map obs_dir l)
  /\ forall pos, pos ∈ l ->
       fs !! strip_sep (obs_dir pos +:+ "/" +:+ pretty 0%nat) = None
       /\ fs' !! strip_sep (obs_dir pos +:+ "/" +:+ pretty 0%nat) = Some Dir.
Proof.
  revert fs. induction l as [|pos l IH]; intros fs Hrun.
  - injection Hrun as <-. split; [done|]. split; [constructor|].
    intros pos Hpos. by apply elem_of_nil in Hpos.
  - simpl in Hrun. inv_bind Hrun. inv_bind Hx.
    rewrite obs_dir_path in Hx0.
    pose proof (makedirs_free _ _ _ Hx0) as Hfree.
    apply makedirs_extends in Hx0 as [Hsub0 Hdir].
    apply (for_each_symlink_extends _ _ _ _
             (fun s i s' Hm => proj1 (makedirs_extends _ _ _ Hm))) in Hx.
    apply IH in Hrun as (Hsub & Hnd & Hall).
    assert (Hmid : x ⊆ fs') by done.
    assert (Hfirst : x0 ⊆ fs') by (by etrans).
    split; [by etrans|]. split.
    + simpl. apply NoDup_cons. split; [|exact Hnd].
      intros Hin. apply list_elem_of_In, in_map_iff in Hin as (pos' & Heq & Hpos').
      apply list_elem_of_In in Hpos'. destruct (Hall pos' Hpos') as [Hnone _].
      rewrite Heq in Hnone.
      pose proof (lookup_weaken _ _ _ _ Hdir Hx) as Hthere. congruence.
    + intros pos' [->|Hpos']%elem_of_cons.
      * split; [exact Hfree|]. exact (lookup_weaken _ _ _ _ Hdir Hfirst).
      * destruct (Hall pos' Hpos') as [Hnone Hsome]. split; [|exact Hsome].
        destruct (fs !! strip_sep (obs_dir pos' +:+ "/" +:+ pretty 0%nat))
          as [node|] eqn:Hold; [|done].
        assert (Hfs : fs ⊆ x) by (by etrans).
        pose proof (lookup_weaken _ _ _ _ Hold Hfs). congruence.
Qed.

(** X14. The preprocessing accepts distinct observers only: when the
    dataset has a layer and [obs_data] has been rebuilt, no two observers
    have the same directory, that is, the same coordinates printed with six
    decimals. Two observers that print alike stop [batches] at the second
    [os.makedirs]. *)
Theorem preprocess_distinct_observers (inp : inputs) fs fs' :
  (0 < ds_len inp)%nat ->
  preprocess inp fs = Ok fs' ->
  NoDup (map obs_dir (ds_obs_pos inp)).
Proof.
  intros Hlen Hrun. unfold preprocess in Hrun. cbv zeta in Hrun. inv_bind Hrun.
  destruct (ds_len inp) as [|n]; [lia|].
  by apply observers_distinct in Hx as (_ & Hnd & _).
Qed.

End Prologue.

(** ** The columns of [folder_setup] *)

Section Columns.

Context {float : Type} `{Interpreter float} `{Platform}.

Implicit Types (fs : FS) (st : setup_state).

(** A turn of the loop leaves the state as it is or builds one sandbox and
    adds one entry to each column. *)
Lemma folder_setup_body_step G params multival brng compact dir_name exp_name
    st vals st' :
  folder_setup_body G params multival brng compact dir_name exp_name st vals
  = Ok st' ->
  st' = st
  \/ exists fold_name unique_ID,
       st_fs st ⊆ st_fs st'
       /\ isdir (st_fs st') fold_name = true
       /\ exe_location st' = (exe_location st ++ [abspath fold_name])%list
       /\ exe_input st' = (exe_input st ++ [unique_ID])%list
       /\ exe_output st'
          = (exe_output st ++ [py_str exp_name +:+ "_" +:+ unique_ID])%list.
Proof.
  unfold folder_setup_body. intros Hrun. inv_bind Hrun.
  destruct x; [left; by injection Hrun as <-|].
  inv_binds Hrun. injection Hrun as <-. right.
  match goal with
  | Hc : create_symlinks _ _ _ _ _ _ _ _ = Ok _ |- _ =>
      apply create_symlinks_extends in Hc as [Hsub Hdir]
  end.
  eexists _, _. simpl. repeat split; eassumption || reflexivity.
Qed.

(** X15. Whatever the namespace binds, the three columns [folder_setup]
    returns stay aligned: they have the same length, at most one entry for
    each combination, every output name is the experiment name, an
    underscore and the input name, every location is the absolute path of a
    sandbox that is a directory when the function returns, and the manifest
    holds the text made of the three columns. *)
Theorem folder_setup_columns G param_values params multival brng compact
    dir_name exp_name fs st :
  folder_setup G param_values params multival brng compact dir_name exp_name fs
  = Ok st ->
  length (exe_location st) = length (exe_input st)
  /\ (length (exe_input st) <= length param_values)%nat
  /\ exe_output st = map (fun id => py_str exp_name +:+ "_" +:+ id) (exe_input st)
  /\ Forall (fun loc => exists fold_name,
               loc = abspath fold_name /\ isdir (st_fs st) fold_name = true)
            (exe_location st)
  /\ st_fs st !! "execute_info.txt"
     = Some (File (Text (manifest_text (exe_location st) (exe_input st)
                           (exe_output st)))).
Proof.
  unfold folder_setup. intros Hrun. inv_bind Hrun. inv_bind Hrun.
  injection Hrun as <-. simpl.
  set (body := folder_setup_body G params multival brng compact dir_name exp_name)
    in *.
  assert (Hcount : forall l s s', for_each body l s = Ok s' ->
            (length (exe_input s') <= length (exe_input s) + length l)%nat).
  { induction l as [|a l IH]; intros s s' Hl.
    - injection Hl as <-. lia.
    - simpl in Hl. inv_bind Hl. apply IH in Hl.
      apply folder_setup_body_step in Hx1 as [->|(? & ? & _ & _ & _ & Hin & _)].
      + simpl. lia.
      + rewrite Hin, length_app in Hl. simpl in *. lia. }
  apply Hcount in Hx as Hle. simpl in Hle.
  apply (for_each_invariant (fun s =>
           length (exe_location s) = length (exe_input s)
           /\ exe_output s
              = map (fun id => py_str exp_name +:+ "_" +:+ id) (exe_input s)
           /\ Forall (fun loc => exists fold_name,
                        loc = abspath fold_name
                        /\ isdir (st_fs s) fold_name = true)
                     (exe_location s))) in Hx.
  - destruct Hx as (Hlen & Hout & Hdirs).
    split; [exact Hlen|]. split; [exact Hle|]. split; [exact Hout|]. split.
    + eapply Forall_impl; [exact Hdirs|]. intros loc (fold_name & -> & Hdir).
      exists fold_name. split; [done|]. unfold isdir in *.
      rewrite (write_file_lookup _ _ _ _ (strip_sep fold_name) Hx0).
      destruct (decide ("execute_info.txt" = strip_sep fold_name)) as [Heq|]; [|done].
      rewrite <- Heq in Hdir. unfold write_file in Hx0.
      by destruct (st_fs x !! "execute_info.txt") as [[]|].
    + rewrite (write_file_lookup _ _ _ _ "execute_info.txt" Hx0).
      by rewrite decide_True.
  - intros s vals s' (Hlen & Hout & Hdirs) Hstep.
    apply folder_setup_body_step in Hstep
      as [->|(fold_name & unique_ID & Hsub & Hdir & Hloc & Hin & Hout')]; [done|].
    rewrite Hloc, Hin, Hout', Hout, !length_app, map_app, Hlen.
    split; [done|]. split; [done|].
    apply Forall_app. split.
    + eapply Forall_impl; [exact Hdirs|]. intros loc (fold & -> & Hd).
      exists fold. split; [done|]. by eapply isdir_mono.
    + constructor; [|constructor]. by exists fold_name.
  - simpl. split; [done|]. split; [done|]. constructor.
Qed.

End Columns.

(** ** What a run of [batches] leaves alone *)




Section Untouched.

Context {float : Type} `{Interpreter float} `{Platform}.

Implicit Types (fs : FS).






End Untouched.

(** ** The further properties on the sample configuration *)

Section SampleChecks.

Import Sample.

(** The first call opens the file, the second finds it in the cache,
    whatever opener it is given. *)
Lemma MSDOpen_caches_witness :
  MSDOpen (fun _ => Ok 7%nat) "srtm.hdf5" (∅ : gmap string nat)
  = Ok (7%nat, <["srtm.hdf5" := 7%nat]> ∅)
  /\ forall opener,
       MSDOpen opener "srtm.hdf5" (<["srtm.hdf5" := 7%nat]> ∅ : gmap string nat)
       = Ok (7%nat, <["srtm.hdf5" := 7%nat]> ∅).
Proof.
  assert (Hrun : MSDOpen (fun _ => Ok 7%nat) "srtm.hdf5" (∅ : gmap string nat)
                 = Ok (7%nat, <["srtm.hdf5" := 7%nat]> ∅)) by reflexivity.
  split; [exact Hrun|].
  exact (proj2 (proj2 (proj2 (MSDOpen_caches _ _ _ _ _ Hrun)))).
Defined.

(** The switches of the sample, [True], [True] and [False], in the document
    of the first combination. *)
Lemma flags_written_as_integers_witness :
  exists input_data,
    create_illumina_in (VStr "Hawaii") (VInt 0) pixel_size
      (ChainMap first_combination params) "400" (f 0 110000) (f 50 0) ["LED"] (VInt 0)
    = Ok input_data
    /\ Forall2
         (fun (i : nat) key =>
            exists v comment,
              input_data !! i = Some [(v, comment)]
              /\ (forall b, v <> VBool b)
              /\ (forall b,
                    cm_get (ChainMap first_combination params) key = Ok (VBool b) ->
                    v = VInt (Z_of_bool b) /\ py_str v = if b then "1" else "0")
              /\ (forall y,
                    cm_get (ChainMap first_combination params) key = Ok y ->
                    (forall b, y <> VBool b) -> v = y))
         [5; 6; 15]%nat flag_keys.
Proof.
  assert (Hok : succeeds (create_illumina_in (VStr "Hawaii") (VInt 0) pixel_size
              (ChainMap first_combination params) "400" (f 0 110000) (f 50 0)
              ["LED"] (VInt 0)) = true)
    by (vm_compute; reflexivity).
  destruct (succeeds_Ok _ Hok) as [input_data Hrun].
  exists input_data. split; [exact Hrun|].
  exact (flags_written_as_integers _ _ _ _ _ _ _ _ _ _ Hrun).
Defined.

(** An azimuth of 180 seen with a bearing of 270 is written as 90. *)
Lemma azimuth_wrapped_witness :
  exists input_data,
    create_illumina_in (VStr "Hawaii") (VInt 0) pixel_size
      (ChainMap combination_180 params) "400" (f 0 110000) (f 50 0) ["LED"] (VInt 270)
    = Ok input_data
    /\ exists elevation z turns,
         input_data !! 16%nat
         = Some [(elevation, "Elevation viewing angle");
                 (VInt z, "Azimuthal viewing angle")]
         /\ cm_get (ChainMap combination_180 params) "elevation_angle" = Ok elevation
         /\ 0 <= z < 360
         /\ 180 + 270 = z + 360 * turns.
Proof.
  assert (Hok : succeeds (create_illumina_in (VStr "Hawaii") (VInt 0) pixel_size
              (ChainMap combination_180 params) "400" (f 0 110000) (f 50 0)
              ["LED"] (VInt 270)) = true)
    by (vm_compute; reflexivity).
  destruct (succeeds_Ok _ Hok) as [input_data Hrun].
  exists input_data. split; [exact Hrun|].
  exact (azimuth_wrapped _ _ _ _ _ _ _ _ _ _ 180 270 Hrun eq_refl eq_refl).
Defined.

(** The first combination of the sample has all it takes. *)
Lemma create_illumina_in_succeeds_witness :
  (exists size, pixel_size (VInt 0) = Ok size)
  /\ Forall (fun key => exists v,
               cm_get (ChainMap first_combination params) key = Ok v)
            required_keys
  /\ Forall (fun key => exists v,
               cm_get (ChainMap first_combination params) key = Ok v
               /\ multipliable v = true)
            flag_keys
  /\ (exists azimuth,
        cm_get (ChainMap first_combination params) "azimuth_angle" = Ok azimuth
        /\ is_Some (as_number azimuth))
  /\ exists input_data,
       create_illumina_in (VStr "Hawaii") (VInt 0) pixel_size
         (ChainMap first_combination params) "400" (f 0 110000) (f 50 0) ["LED"]
         (VInt 0) = Ok input_data.
Proof.
  assert (Hsize : exists size, pixel_size (VInt 0) = Ok size) by (by eexists).
  assert (Hkeys : Forall (fun key => exists v,
                            cm_get (ChainMap first_combination params) key = Ok v)
                         required_keys).
  { repeat constructor; eexists; reflexivity. }
  assert (Hflags : Forall (fun key => exists v,
                             cm_get (ChainMap first_combination params) key = Ok v
                             /\ multipliable v = true)
                          flag_keys).
  { repeat constructor; eexists; split; reflexivity. }
  assert (Haz : exists azimuth,
             cm_get (ChainMap first_combination params) "azimuth_angle" = Ok azimuth
             /\ is_Some (as_number azimuth)).
  { eexists. split; [reflexivity|]. by eexists. }
  split; [exact Hsize|]. split; [exact Hkeys|]. split; [exact Hflags|].
  split; [exact Haz|].
  exact (proj2 (create_illumina_in_succeeds (VStr "Hawaii") (VInt 0) pixel_size
                  (ChainMap first_combination params) "400" (f 0 110000) (f 50 0)
                  ["LED"] 0)
           (conj Hsize (conj Hkeys (conj Hflags Haz)))).
Defined.

(** The luminosity of the lamp of the sample in the first sandbox. *)
Lemma sandbox_links_present_witness :
  isdir folder sandbox_dir = false
  /\ exists fs',
       create_symlinks sandbox_dir params (VStr "Hawaii") coords (VInt 0) ["LED"]
         "400" folder = Ok fs'
       /\ fs' !! (sandbox_dir +:+ "Hawaii" +:+ "_lumlp_" +:+ fmt_03d 1 +:+ ".bin")
          = Some (Link (relpath
                          (path_join
                             (path_join (path_join "obs_data" coords)
                                (py_str (VInt 0 : pyval dec)))
                             ("Hawaii" +:+ "_" +:+ "400" +:+ "_lumlp_" +:+ "LED"
                              +:+ ".bin"))
                          sandbox_dir)).
Proof.
  assert (Hdir : isdir folder sandbox_dir = false) by (vm_compute; reflexivity).
  split; [exact Hdir|].
  assert (Hok : succeeds (create_symlinks sandbox_dir params (VStr "Hawaii") coords
                            (VInt 0) ["LED"] "400" folder) = true)
    by (vm_compute; reflexivity).
  destruct (succeeds_Ok _ Hok) as [fs' Hrun].
  exists fs'. split; [exact Hrun|].
  destruct (sandbox_links_present sandbox_dir params (VStr "Hawaii") coords
              (VInt 0) ["LED"] "400" folder fs' Hdir Hrun)
    as (exp & profile & layer_type & Hexp & _ & _ & _ & _ & Hlinks).
  injection Hexp as <-.
  exact (proj2 (proj2 (proj2 (proj2 (proj2 (proj2 (proj2 (proj2 Hlinks)))))) 0%nat
                  "LED" eq_refl)).
Defined.


(** The batch file of the sample is not turned into a sandbox. *)
Lemma create_symlinks_never_overwrites_witness :
  canonical "batch_1/" = true
  /\ folder !! strip_sep "batch_1/" = Some (File (Text "cd exec/old"))
  /\ create_symlinks "batch_1/" params (VStr "Hawaii") coords (VInt 0) ["LED"] "400"
       folder
     = Raise (FileExistsError "batch_1/").
Proof.
  assert (Hcanon : canonical "batch_1/" = true) by (vm_compute; reflexivity).
  assert (Hfile : folder !! strip_sep "batch_1/" = Some (File (Text "cd exec/old")))
    by (vm_compute; reflexivity).
  split; [exact Hcanon|]. split; [exact Hfile|].
  exact (create_symlinks_never_overwrites "batch_1/" params (VStr "Hawaii") coords
           (VInt 0) ["LED"] "400" folder (Text "cd exec/old") Hcanon Hfile).
Defined.

(** Two elevations and no azimuth give no combination, and an empty
    manifest in the sample folder. *)
Lemma empty_parameter_empties_matrix_witness :
  dict_lookup "azimuth_angle" config_no_azimuth = Some (VList [])
  /\ folder !! "execute_info.txt" = None
  /\ param_vals_of config_no_azimuth = []
  /\ folder_setup module_globals (param_vals_of config_no_azimuth) config_no_azimuth
       (multival_of config_no_azimuth) None false "exec/" (VStr "Hawaii") folder
     = Ok (SetupState (<["execute_info.txt" := File (Text "")]> folder) [] [] []).
Proof.
  assert (Habsent : folder !! "execute_info.txt" = None) by (vm_compute; reflexivity).
  split; [reflexivity|]. split; [exact Habsent|].
  destruct (empty_parameter_empties_matrix config_no_azimuth "azimuth_angle" eq_refl)
    as [Hempty Hsetup].
  split; [exact Hempty|].
  exact (Hsetup module_globals None false "exec/" (VStr "Hawaii") folder
           (or_introl Habsent)).
Defined.

(** The first combination of the sample. *)
Lemma local_params_bind_multival_witness :
  NoDup (dict_keys params)
  /\ In [VInt 45; VInt 0; f 400 0] (param_vals_of params)
  /\ dict_of_pairs (zip (multival_of params) [VInt 45; VInt 0; f 400 0])
     = zip (multival_of params) [VInt 45; VInt 0; f 400 0]
  /\ dict_keys (dict_of_pairs (zip (multival_of params) [VInt 45; VInt 0; f 400 0]))
     = multival_of params.
Proof.
  assert (Hnd : NoDup (dict_keys params)).
  { apply (bool_decide_unpack _). vm_compute. exact I. }
  assert (Hin : In [VInt 45; VInt 0; f 400 0] (param_vals_of params)).
  { vm_compute. left. reflexivity. }
  split; [exact Hnd|]. split; [exact Hin|].
  destruct (local_params_bind_multival params [VInt 45; VInt 0; f 400 0] Hnd
              (proj2 (list_elem_of_In _ _) Hin)) as (Heq & Hkeys & _).
  split; [exact Heq|exact Hkeys].
Defined.

(** The clean-up of the sample folder, whose batch name is [batch]. *)
Lemma clear_batch_files_outcome_witness :
  dict_get "batch_file_name" config = Ok (VStr "batch")
  /\ contains "/" "batch" = false
  /\ let matches f := negb (contains "/" f) && glob_match ("batch" +:+ "*") f in
     match clear_batch_files config folder with
     | Ok fs' =>
         (forall f, fs' !! f = if matches f then None else folder !! f)
         /\ (forall f, matches f = true -> folder !! f <> Some Dir)
     | Raise e =>
         exists d,
           e = IsADirectoryError d /\ matches d = true /\ folder !! d = Some Dir
     end.
Proof.
  split; [reflexivity|]. split; [reflexivity|].
  exact (clear_batch_files_outcome config folder (VStr "batch") eq_refl eq_refl).
Defined.

(** The one observer of the sample. *)
Lemma preprocess_distinct_observers_witness :
  (0 < ds_len world)%nat
  /\ (exists fs', preprocess world folder = Ok fs')
  /\ NoDup (map obs_dir (ds_obs_pos world)).
Proof.
  assert (Hlen : (0 < ds_len world)%nat) by (simpl; lia).
  split; [exact Hlen|].
  assert (Hok : succeeds (preprocess world folder) = true)
    by (vm_compute; reflexivity).
  destruct (succeeds_Ok _ Hok) as [fs' Hrun].
  split; [exists fs'; exact Hrun|].
  exact (preprocess_distinct_observers world folder fs' Hlen Hrun).
Defined.

(** The columns of the sample once the four names are bound. *)
Lemma folder_setup_columns_witness :
  exists st,
    folder_setup bound_names (param_vals_of params) params (multival_of params) None
      false "exec/" (VStr "Hawaii") folder = Ok st
    /\ length (exe_location st) = length (exe_input st)
    /\ (length (exe_input st) <= length (param_vals_of params))%nat
    /\ exe_output st = map (fun id => "Hawaii" +:+ "_" +:+ id) (exe_input st)
    /\ Forall (fun loc => exists fold_name,
                 loc = abspath fold_name /\ isdir (st_fs st) fold_name = true)
              (exe_location st)
    /\ st_fs st !! "execute_info.txt"
       = Some (File (Text (manifest_text (exe_location st) (exe_input st)
                             (exe_output st)))).
Proof.
  assert (Hok : succeeds (folder_setup bound_names (param_vals_of params) params
              (multival_of params) None false "exec/" (VStr "Hawaii") folder) = true)
    by (vm_compute; reflexivity).
  destruct (succeeds_Ok _ Hok) as [st Hrun].
  exists st. split; [exact Hrun|].
  exact (folder_setup_columns _ _ _ _ _ _ _ _ _ _ Hrun).
Defined.


End SampleChecks.
